(** * Legal-research assistant: the query route and the retrieval core

    The repository is a Next.js application.  Its HTTP route handler
    ([POST], the query endpoint) is embedded below from its source; the
    retrieval-and-synthesis library it imports ([@/lib/legalSearch]) is
    not part of the sources at hand and is modelled from the written
    specification in [Module LegalSearch].

    Conventions of the embedding:
    - a JavaScript string is the list of its UTF-16 code units;
    - a JSON value is an inductive tree, an object being the list of its
      own properties in insertion order;
    - the handler runs in a small monad that threads a log of the calls
      made into the core and carries abrupt completions (a thrown
      [TypeError]). *)

From Stdlib Require Import List NArith ZArith QArith Bool Ascii String Lia Lqa.
From Stdlib Require Import Permutation Sorted.
Import ListNotations.

Set Implicit Arguments.
Set Warnings "-register-all".

(* ====================================================================== *)
(** * JavaScript values                                                    *)
(* ====================================================================== *)

Module JS.

(** A string is a sequence of UTF-16 code units. *)
Definition code_unit := N.
Definition jsstring := list code_unit.

(** String literals of the source (all of them ASCII). *)
Definition lit (s : string) : jsstring :=
  map N_of_ascii (list_ascii_of_string s).

Definition code_unit_eqb : code_unit -> code_unit -> bool := N.eqb.

Fixpoint jsstring_eqb (a b : jsstring) : bool :=
  match a, b with
  | [], [] => true
  | x :: a', y :: b' => code_unit_eqb x y && jsstring_eqb a' b'
  | _, _ => false
  end.

(** ECMAScript [WhiteSpace] and [LineTerminator] code points, the set
    that [String.prototype.trim] strips: TAB, LF, VT, FF, CR, SP, NBSP,
    the Unicode space separators, LS, PS and the byte-order mark. *)
Definition is_white_space (c : code_unit) : bool :=
  ((9 <=? c) && (c <=? 13)            (* U+0009 .. U+000D *)
   || (c =? 32)                       (* U+0020 *)
   || (c =? 160)                      (* U+00A0 *)
   || (c =? 5760)                     (* U+1680 *)
   || ((8192 <=? c) && (c <=? 8202))  (* U+2000 .. U+200A *)
   || (c =? 8232) || (c =? 8233)      (* U+2028, U+2029 *)
   || (c =? 8239)                     (* U+202F *)
   || (c =? 8287)                     (* U+205F *)
   || (c =? 12288)                    (* U+3000 *)
   || (c =? 65279))%N.                (* U+FEFF *)

Fixpoint drop_while (p : code_unit -> bool) (s : jsstring) : jsstring :=
  match s with
  | [] => []
  | c :: s' => if p c then drop_while p s' else s
  end.

Definition trimStart (s : jsstring) : jsstring := drop_while is_white_space s.
Definition trimEnd (s : jsstring) : jsstring :=
  rev (drop_while is_white_space (rev s)).

(** [String.prototype.trim] *)
Definition trim (s : jsstring) : jsstring := trimEnd (trimStart s).

(** JSON values, as [JSON.parse] produces them and [JSON.stringify]
    consumes them.  An object lists its own properties in insertion
    order. *)
Inductive json : Type :=
| JNull
| JBool (b : bool)
| JNum (x : Q)
| JStr (s : jsstring)
| JArr (items : list json)
| JObj (props : list (jsstring * json)).

(** Own property by name; a later member of the same name overrides an
    earlier one, as in [JSON.parse]. *)
Fixpoint own_property (props : list (jsstring * json)) (key : jsstring)
  : option json :=
  match props with
  | [] => None
  | (k, v) :: rest =>
      match own_property rest key with
      | Some v' => Some v'
      | None => if jsstring_eqb k key then Some v else None
      end
  end.

Definition keys (props : list (jsstring * json)) : list jsstring :=
  map fst props.

(** Abrupt completions. *)
Inductive exn : Type :=
| SyntaxError
| TypeError.

Inductive completion (A : Type) : Type :=
| Normal (a : A)
| Throw (e : exn).
Arguments Normal {A} a.
Arguments Throw {A} e.

(** [v.question] for a value [v] that came out of [JSON.parse]: reading
    a property of [null] throws; an object answers with its own
    property; numbers, booleans, strings and arrays have no property of
    that name on their prototype chain, so the read gives [undefined]
    ([None]). *)
Definition get_question (v : json) : completion (option json) :=
  match v with
  | JNull => Throw TypeError
  | JObj props => Normal (own_property props (lit "question"))
  | _ => Normal None
  end.

(** [x?.trim()]: the optional chain short-circuits to [undefined] on
    [undefined] and [null]; on a string it calls
    [String.prototype.trim]; on any other JSON value the member [trim]
    is [undefined] or a non-callable JSON value and the call throws. *)
Definition optional_trim (x : option json) : completion (option jsstring) :=
  match x with
  | None => Normal None
  | Some JNull => Normal None
  | Some (JStr s) => Normal (Some (trim s))
  | Some _ => Throw TypeError
  end.

(** [!question] for [question : string | undefined]. *)
Definition falsy (question : option jsstring) : bool :=
  match question with
  | None => true
  | Some [] => true
  | Some (_ :: _) => false
  end.

End JS.

(* ====================================================================== *)
(** * Data model                                                           *)
(* ====================================================================== *)

Module Data.
Import JS.

(** Modelled from the spec: the [{label, url}] reference pair of an
    entry's [sources] (section 3); the page's message type declares the
    same two members. *)
Record Source : Type := mkSource {
  label : jsstring;
  url : jsstring
}.

(** Modelled from the spec: the Entry type of the library, one static
    knowledge-base record (section 3). *)
Record Entry : Type := mkEntry {
  id : jsstring;
  title : jsstring;
  type : jsstring;
  region : jsstring;
  era : jsstring;
  summary : jsstring;
  excerpt : jsstring;
  keywords : list jsstring;
  citations : list jsstring;
  sources : list Source
}.

(** Modelled from the spec: the Result type of the library, an entry
    enriched with a per-query relevance [score] and [highlights]
    (section 3): all the entry's fields plus those two.  The handler
    reads eleven of its members, the ones the page's message type
    declares; [keywords] is the one it leaves aside. *)
Record Result : Type := mkResult {
  entry :> Entry;
  score : Q;
  highlights : list jsstring
}.

(** Modelled from the spec: what [buildAnswer] returns (section 6); the
    handler destructures exactly these two members. *)
Record Answer : Type := mkAnswer {
  answer : jsstring;
  followUps : list jsstring
}.

End Data.

(* ====================================================================== *)
(** * The route handler                                                    *)
(* ====================================================================== *)

Module Route.
Import JS Data.

(** The request, as far as the handler looks at it: [request.json()]
    either rejects or resolves to the parsed body. *)
Inductive Request : Type :=
| BadBody
| JsonBody (v : json).

Definition request_json (request : Request) : completion json :=
  match request with
  | BadBody => Throw SyntaxError
  | JsonBody v => Normal v
  end.

Record Response : Type := mkResponse {
  status : N;
  body : json
}.

(** [NextResponse.json(data, { status })]; the status defaults to 200. *)
Definition NextResponse_json (data : json) (init : option N) : Response :=
  mkResponse (match init with Some st => st | None => 200%N end) data.

(** Calls into the imported core, in the order they are made. *)
Inductive CoreCall : Type :=
| CallRetrieve (question : jsstring) (limit : nat)
| CallBuild (question : jsstring) (results : list Result).

(** The handler's monad: a log of core calls, and abrupt completion. *)
Definition M (A : Type) : Type :=
  list CoreCall -> completion A * list CoreCall.

Definition ret {A} (a : A) : M A := fun log => (Normal a, log).

Definition bind {A B} (m : M A) (k : A -> M B) : M B :=
  fun log =>
    match m log with
    | (Normal a, log') => k a log'
    | (Throw e, log') => (Throw e, log')
    end.

Definition lift {A} (c : completion A) : M A := fun log => (c, log).

Definition tell (c : CoreCall) : M unit := fun log => (Normal tt, log ++ [c]).

Declare Scope handler_scope.
Delimit Scope handler_scope with handler.
Notation "x <- m ;; k" := (bind m (fun x => k))
  (at level 61, m at next level, right associativity) : handler_scope.
Notation "m ;; k" := (bind m (fun _ => k))
  (at level 61, right associativity) : handler_scope.

Definition str (s : string) : json := JStr (lit s).

Definition source_json (s : Source) : json :=
  JObj [ (lit "label", JStr (label s)); (lit "url", JStr (url s)) ].

Definition strings_json (l : list jsstring) : json := JArr (map JStr l).

Section Handler.

(** The two entry points imported from [@/lib/legalSearch]. *)
Variable retrieveLegalKnowledge : jsstring -> nat -> list Result.
Variable buildAnswer : jsstring -> list Result -> Answer.

Definition call_retrieve (question : jsstring) (limit : nat)
  : M (list Result) :=
  (tell (CallRetrieve question limit) ;;
   ret (retrieveLegalKnowledge question limit))%handler.

Definition call_build (question : jsstring) (results : list Result)
  : M Answer :=
  (tell (CallBuild question results) ;;
   ret (buildAnswer question results))%handler.

(** The object literal of [results.map((result) => ({ ... }))]. *)
Definition project (result : Result) : json :=
  JObj [ (lit "id", JStr (id result));
         (lit "title", JStr (title result));
         (lit "summary", JStr (summary result));
         (lit "excerpt", JStr (excerpt result));
         (lit "citations", strings_json (citations result));
         (lit "sources", JArr (map source_json (sources result)));
         (lit "score", JNum (score result));
         (lit "highlights", strings_json (highlights result));
         (lit "region", JStr (region result));
         (lit "era", JStr (era result));
         (lit "type", JStr (type result)) ].

(** [export async function POST(request: Request)].  [now] is what
    [new Date().toISOString()] evaluates to when the response is
    built. *)
Definition POST (request : Request) (now : jsstring) : M Response :=
  match request_json request with
  | Throw _ =>
      ret (NextResponse_json
             (JObj [ (lit "error", str "Invalid JSON payload") ])
             (Some 400%N))
  | Normal payload =>
      (question <- lift (match get_question payload with
                         | Normal q => optional_trim q
                         | Throw e => Throw e
                         end) ;;
       if falsy question then
         ret (NextResponse_json
                (JObj [ (lit "error", str "Question is required") ])
                (Some 400%N))
       else
         let question := match question with Some s => s | None => [] end in
         results <- call_retrieve question 5 ;;
         built <- call_build question results ;;
         ret (NextResponse_json
                (JObj [ (lit "answer", JStr (answer built));
                        (lit "results", JArr (map project results));
                        (lit "followUps", strings_json (followUps built));
                        (lit "timestamp", JStr now) ])
                None))%handler
  end.

(** Running the handler on a fresh log. *)
Definition handle (request : Request) (now : jsstring)
  : completion Response * list CoreCall :=
  POST request now [].

End Handler.

End Route.

(* ====================================================================== *)
(** * The retrieval-and-synthesis core                                     *)
(* ====================================================================== *)

Module LegalSearch.
Import JS Data.

(** Modelled from the spec: the library [@/lib/legalSearch]
    ([retrieveLegalKnowledge], [buildAnswer] and the components behind
    them).  Everything in this module follows sections 3, 4 and 6 of the
    specification; the constants it leaves open, and the lowercasing of
    the platform ([String.prototype.toLowerCase], whose case tables are
    no part of the repository), are gathered in [Config]. *)
Record Config : Type := mkConfig {
  lowercase : jsstring -> jsstring;  (* the platform's lowercasing of a string *)
  min_token_length : nat;       (* tokens shorter than this are discarded *)
  stopwords : list jsstring;
  weight_title : Q;
  weight_keywords : Q;
  weight_summary : Q;
  weight_excerpt : Q;
  occurrence_cap : nat;         (* diminishing-returns cap per token and field *)
  phrase_bonus : Q;
  max_highlights : nat;
  max_highlight_length : nat;
  max_follow_ups : nat
}.

(** ** Text helpers *)

(** Modelled from the spec: the punctuation the Normalizer strips, taken
    as the ASCII punctuation marks. *)
Definition is_punctuation (c : code_unit) : bool :=
  (((33 <=? c) && (c <=? 47)) || ((58 <=? c) && (c <=? 64))
   || ((91 <=? c) && (c <=? 96)) || ((123 <=? c) && (c <=? 126)))%N.

(** Modelled from the spec: splitting, the pieces of [s] between the
    code units that satisfy [p]. *)
Fixpoint split_on (p : code_unit -> bool) (s : jsstring) : list jsstring :=
  match s with
  | [] => [[]]
  | c :: s' =>
      if p c then [] :: split_on p s'
      else match split_on p s' with
           | [] => [[c]]
           | w :: ws => (c :: w) :: ws
           end
  end.

(** Modelled from the spec: a split leaves no empty token. *)
Definition non_empty (s : jsstring) : bool :=
  match s with [] => false | _ :: _ => true end.

(** Modelled from the spec: membership of a token in a token set or
    sequence. *)
Definition mem (t : jsstring) (l : list jsstring) : bool :=
  existsb (jsstring_eqb t) l.

(** Modelled from the spec: concatenation with a separator, for the
    templated answer text. *)
Fixpoint join (sep : jsstring) (l : list jsstring) : jsstring :=
  match l with
  | [] => []
  | [x] => x
  | x :: rest => x ++ sep ++ join sep rest
  end.

(** ** 4.1 Normalizer *)

(** Modelled from the spec: lowercasing and punctuation stripping, the
    character-level part of normalization. *)
Definition canonical (cfg : Config) (text : jsstring) : jsstring :=
  filter (fun c => negb (is_punctuation c)) (lowercase cfg text).

(** Modelled from the spec: the token filter, minimum length and
    stopword set. *)
Definition keep_token (cfg : Config) (t : jsstring) : bool :=
  (min_token_length cfg <=? List.length t)%nat && negb (mem t (stopwords cfg)).

(** Modelled from the spec: [normalize(text)], the ordered token
    sequence: lowercase, strip punctuation, split on whitespace, discard
    short tokens and stopwords. *)
Definition normalize (cfg : Config) (text : jsstring) : list jsstring :=
  filter (keep_token cfg)
         (filter non_empty (split_on is_white_space (canonical cfg text))).

(** ** 4.2 Scoring Engine *)

(** Modelled from the spec: the scoring capability, "anything that can
    score a token set against an entry". *)
Class Scorer : Type := score_of : list jsstring -> Entry -> Q.

(** Modelled from the spec: the number of occurrences of a token in a
    field. *)
Definition occurrences (t : jsstring) (tokens : list jsstring) : nat :=
  List.length (filter (jsstring_eqb t) tokens).

(** Modelled from the spec: the capped number of occurrences of the
    query tokens in one field. *)
Definition field_hits (cfg : Config) (queryTokens field : list jsstring) : nat :=
  list_sum (map (fun q => Nat.min (occurrences q field) (occurrence_cap cfg))
                queryTokens).

(** Modelled from the spec: the phrase test, a token sequence found
    at the head of another. *)
Fixpoint is_prefix (a b : list jsstring) : bool :=
  match a, b with
  | [], _ => true
  | x :: a', y :: b' => jsstring_eqb x y && is_prefix a' b'
  | _ :: _, [] => false
  end.

(** Modelled from the spec: the phrase test, a token sequence found
    contiguously in another. *)
Fixpoint is_infix (a b : list jsstring) : bool :=
  is_prefix a b
  || match b with
     | [] => false
     | _ :: b' => is_infix a b'
     end.

(** Modelled from the spec: a count as a score summand. *)
Definition of_nat (n : nat) : Q := inject_Z (Z.of_nat n).

Section Fields.
Variable cfg : Config.
Variable e : Entry.

(** Modelled from the spec: each indexable field tokenized separately. *)
Definition title_tokens : list jsstring := normalize cfg (title e).
(** Modelled from the spec: the tokens of the [keywords] field. *)
Definition keyword_tokens : list jsstring :=
  flat_map (normalize cfg) (keywords e).
(** Modelled from the spec: the tokens of the [summary] field. *)
Definition summary_tokens : list jsstring := normalize cfg (summary e).
(** Modelled from the spec: the tokens of the [excerpt] field. *)
Definition excerpt_tokens : list jsstring := normalize cfg (excerpt e).

(** Modelled from the spec: the number of overlapping tokens, over the
    four fields. *)
Definition overlap (queryTokens : list jsstring) : nat :=
  field_hits cfg queryTokens title_tokens
  + field_hits cfg queryTokens keyword_tokens
  + field_hits cfg queryTokens summary_tokens
  + field_hits cfg queryTokens excerpt_tokens.

(** Modelled from the spec: each field's weight times its hits. *)
Definition weighted_overlap (queryTokens : list jsstring) : Q :=
  weight_title cfg * of_nat (field_hits cfg queryTokens title_tokens)
  + weight_keywords cfg * of_nat (field_hits cfg queryTokens keyword_tokens)
  + weight_summary cfg * of_nat (field_hits cfg queryTokens summary_tokens)
  + weight_excerpt cfg * of_nat (field_hits cfg queryTokens excerpt_tokens).

(** Modelled from the spec: the phrase test, the full query appears
    verbatim in some field. *)
Definition phrase_match (queryTokens : list jsstring) : bool :=
  match queryTokens with
  | [] => false
  | _ :: _ =>
      is_infix queryTokens title_tokens
      || is_infix queryTokens keyword_tokens
      || is_infix queryTokens summary_tokens
      || is_infix queryTokens excerpt_tokens
  end.

(** Modelled from the spec: [score(queryTokens, entry)], field-weighted
    lexical overlap plus the phrase bonus; exactly 0 when no query
    token occurs in the entry. *)
Definition lexical_score (queryTokens : list jsstring) : Q :=
  if (overlap queryTokens =? 0)%nat then 0
  else weighted_overlap queryTokens
       + (if phrase_match queryTokens then phrase_bonus cfg else 0).
End Fields.

(** Modelled from the spec: the lexical scorer as an instance of the
    scoring capability. *)
#[export] Instance lexical (cfg : Config) : Scorer :=
  fun queryTokens e => lexical_score cfg e queryTokens.

(** ** 4.3 Result Ranker *)

(** Modelled from the spec: an entry with its score. *)
Definition Scored : Type := (Entry * Q)%type.

(** Modelled from the spec: the tie-break of the ranker, an insertion
    that keeps an earlier entry ahead of a later one of equal score. *)
Fixpoint insert_desc (x : Scored) (l : list Scored) : list Scored :=
  match l with
  | [] => [x]
  | y :: l' =>
      if Qle_bool (snd y) (snd x) then x :: l
      else y :: insert_desc x l'
  end.

(** Modelled from the spec: sorting by descending score, stable. *)
Fixpoint sort_desc (l : list Scored) : list Scored :=
  match l with
  | [] => []
  | x :: l' => insert_desc x (sort_desc l')
  end.

(** Modelled from the spec: the cutoff, a score strictly above 0. *)
Definition positive (x : Scored) : bool := negb (Qle_bool (snd x) 0).

(** Modelled from the spec: [rank(entries, scores, limit)]: drop scores
    [<= 0], sort by descending score with ties in knowledge-base order,
    truncate to [limit]. *)
Definition rank (scored : list Scored) (limit : nat) : list Scored :=
  firstn limit (sort_desc (filter positive scored)).

(** ** 4.4 Highlight Extractor *)

(** Modelled from the spec: where a sentence- or clause-level span
    ends, taken as [.], [!], [?] and [;]. *)
Definition is_span_end (c : code_unit) : bool :=
  ((c =? 46) || (c =? 33) || (c =? 63) || (c =? 59))%N.

(** Modelled from the spec: the spans of a text, trimmed. *)
Definition spans (text : jsstring) : list jsstring :=
  map trim (split_on is_span_end text).

(** Modelled from the spec: a span that contains at least one query
    token, by normalized match. *)
Definition has_query_token (cfg : Config) (queryTokens : list jsstring)
           (span : jsstring) : bool :=
  existsb (fun t => mem t queryTokens) (normalize cfg span).

(** Modelled from the spec: the spans of the excerpt that are kept. *)
Definition matching_spans (cfg : Config) (queryTokens : list jsstring)
           (e : Entry) : list jsstring :=
  filter (has_query_token cfg queryTokens) (spans (excerpt e)).

(** Modelled from the spec: [extractHighlights(queryTokens, entry)]. *)
Definition extractHighlights (cfg : Config) (queryTokens : list jsstring)
           (e : Entry) : list jsstring :=
  match matching_spans cfg queryTokens e with
  | [] => [summary e]
  | found =>
      map (firstn (max_highlight_length cfg))
          (firstn (max_highlights cfg) found)
  end.

(** ** 4.5 Answer Composer *)

(** Modelled from the spec: the fixed fallback statement, which
    acknowledges that nothing matched and invites a refined query; its
    wording stands in for the library's. *)
Definition FALLBACK_ANSWER : jsstring :=
  lit "No direct match was found in the knowledge base. Try refining the question with a specific term, doctrine or statute.".

(** Modelled from the spec: the trailing citation list; a result
    without citations adds nothing to it. *)
Definition citation_list (referenced : list Result) : jsstring :=
  match flat_map (fun r : Result => citations r) referenced with
  | [] => []
  | cs => lit " Citations: " ++ join (lit "; ") cs ++ lit "."
  end.

(** Modelled from the spec: [composeAnswer(query, results)]. *)
Definition composeAnswer (query : jsstring) (results : list Result) : jsstring :=
  match results with
  | [] => FALLBACK_ANSWER
  | top :: _ =>
      let referenced := firstn 3 results in
      lit "On " ++ title top ++ lit " (" ++ type top ++ lit "): "
      ++ join (lit " ") (map (fun r : Result => summary r) referenced)
      ++ citation_list referenced
  end.

(** ** 4.6 Follow-Up Generator *)

(** Modelled from the spec: textual identity up to letter case, two
    strings being alike when the platform lowercases them to the same
    string. *)
Definition equal_ignoring_case (cfg : Config) (a b : jsstring) : bool :=
  jsstring_eqb (lowercase cfg a) (lowercase cfg b).

(** Modelled from the spec: an entry that shares [type], [region] or
    [era] with the top-ranked result. *)
Definition shares_theme (e top : Entry) : bool :=
  jsstring_eqb (type e) (type top)
  || jsstring_eqb (region e) (region top)
  || jsstring_eqb (era e) (era top).

(** Modelled from the spec: an entry already among the results. *)
Definition in_results (e : Entry) (results : list Result) : bool :=
  existsb (fun r : Result => jsstring_eqb (id r) (id e)) results.

(** Modelled from the spec: a short prompt referencing the entry's
    title; its wording stands in for the library's. *)
Definition suggestion (e : Entry) : jsstring :=
  lit "What should I know about " ++ title e ++ lit "?".

(** Modelled from the spec: [generateFollowUps(query, results, allEntries)]. *)
Definition generateFollowUps (cfg : Config) (query : jsstring)
           (results : list Result) (allEntries : list Entry) : list jsstring :=
  match results with
  | [] => []
  | top :: _ =>
      let candidates :=
        filter (fun e => shares_theme e top && negb (in_results e results))
               allEntries in
      firstn (max_follow_ups cfg)
             (filter (fun s => negb (equal_ignoring_case cfg s query))
                     (map suggestion candidates))
  end.

(** ** 6. The two entry points *)

Section Core.
Variable cfg : Config.
Context {scorer : Scorer}.
(** The process-wide, read-only knowledge base. *)
Variable knowledgeBase : list Entry.

(** Modelled from the spec: [retrieveLegalKnowledge(question, limit)]. *)
Definition retrieveLegalKnowledge (question : jsstring) (limit : nat)
  : list Result :=
  let queryTokens := normalize cfg question in
  map (fun se : Scored =>
         mkResult (fst se) (snd se)
                  (extractHighlights cfg queryTokens (fst se)))
      (rank (map (fun e => (e, score_of queryTokens e)) knowledgeBase) limit).

(** Modelled from the spec: [buildAnswer(question, results)]. *)
Definition buildAnswer (question : jsstring) (results : list Result)
  : Answer :=
  mkAnswer (composeAnswer question results)
           (generateFollowUps cfg question results knowledgeBase).
End Core.

End LegalSearch.

(* ====================================================================== *)
(** * The application: the route wired to the core                         *)
(* ====================================================================== *)

Module App.
Import JS Data.

Section Wiring.
Variable cfg : LegalSearch.Config.
Context {scorer : LegalSearch.Scorer}.
Variable knowledgeBase : list Entry.

Definition POST : Route.Request -> jsstring -> Route.M Route.Response :=
  Route.POST (LegalSearch.retrieveLegalKnowledge cfg knowledgeBase)
             (LegalSearch.buildAnswer cfg knowledgeBase).

Definition handle (request : Route.Request) (now : jsstring)
  : completion Route.Response * list Route.CoreCall :=
  POST request now [].
End Wiring.

End App.

(* ====================================================================== *)
(** * Sample data used to exercise the definitions                         *)
(* ====================================================================== *)

Module Sample.
Import JS Data.

(** A lowercasing for the sample configuration: the letters A to Z,
    the only capitals the sample texts hold. *)
Definition lowercase_unit (c : code_unit) : code_unit :=
  if ((65 <=? c) && (c <=? 90))%N then (c + 32)%N else c.

Definition ascii_lowercase (s : jsstring) : jsstring := map lowercase_unit s.

Definition config : LegalSearch.Config :=
  LegalSearch.mkConfig
    ascii_lowercase
    2
    (map lit ["a"; "an"; "the"; "of"; "in"; "on"; "to"; "for"; "by";
              "and"; "or"; "is"]%string)
    4 3 2 1
    3
    5
    3 160 3.

Definition champerty : Entry :=
  mkEntry (lit "champerty") (lit "Champerty") (lit "doctrine")
          (lit "Common law") (lit "Medieval")
          (lit "An agreement to fund a lawsuit in return for a share of the proceeds.")
          (lit "Champerty is a bargain with a litigant. The funder takes part of the recovery; courts once voided it!")
          [lit "maintenance"; lit "litigation funding"]
          [lit "Black's Law Dictionary (11th ed. 2019)"]
          [mkSource (lit "Black's") (lit "https://example.org/champerty")].

Definition consideration : Entry :=
  mkEntry (lit "consideration") (lit "Consideration") (lit "definition")
          (lit "Common law") (lit "Modern")
          (lit "Something of value bargained for in a contract.")
          (lit "A promise is enforceable when supported by value. Past acts rarely qualify.")
          [lit "contract"; lit "bargain"]
          []
          [].

Definition blue_law : Entry :=
  mkEntry (lit "blue-law") (lit "Sunday closing statute") (lit "statute")
          (lit "United States") (lit "Colonial")
          (lit "A statute restricting commerce on Sundays.")
          (lit "Blue laws still limit retail sales in places; a bargain struck on Sunday could be void.")
          [lit "blue laws"; lit "sabbath"]
          [lit "McGowan v. Maryland, 366 U.S. 420 (1961)"]
          [].

Definition knowledgeBase : list Entry := [champerty; consideration; blue_law].

Definition question_body (q : string) : Route.Request :=
  Route.JsonBody (JObj [ (lit "question", JStr (lit q)) ]).

Definition now : jsstring := lit "2024-01-01T00:00:00.000Z".

(** The core over the sample knowledge base, with the lexical scorer. *)
Definition retrieve : jsstring -> nat -> list Result :=
  LegalSearch.retrieveLegalKnowledge
    config (scorer := LegalSearch.lexical config) knowledgeBase.

Definition build : jsstring -> list Result -> Answer :=
  LegalSearch.buildAnswer config knowledgeBase.

(** The body [{"question": 5}]. *)
Definition numeric_question : Route.Request :=
  Route.JsonBody (JObj [ (lit "question", JNum 5) ]).

(** A fourth entry, and the knowledge base with it. *)
Definition maintenance : Entry :=
  mkEntry (lit "maintenance") (lit "Maintenance") (lit "doctrine")
          (lit "Common law") (lit "Medieval")
          (lit "Officious intermeddling in a suit by one with no interest in it.")
          (lit "Maintenance is support of litigation by a stranger. Champerty is its aggravated form.")
          [lit "intermeddling"]
          []
          [].

Definition wider_knowledgeBase : list Entry := knowledgeBase ++ [maintenance].

(** A question that is, but for its capitals, a suggestion the
    generator would make. *)
Definition suggestion_in_lowercase : jsstring :=
  lit "what should i know about consideration?".

End Sample.

(* ====================================================================== *)
(** * What the specification says, as predicates                           *)
(* ====================================================================== *)

Module Contract.
Import JS Data Route.

(** The [question] member of the request body, when the body is an
    object that has one. *)
Definition question_member (request : Request) : option json :=
  match request with
  | JsonBody (JObj props) => own_property props (lit "question")
  | _ => None
  end.

Definition unparseable (request : Request) : Prop := request = BadBody.

(** The body parsed, and its [question] is absent or [null]. *)
Definition question_missing (request : Request) : Prop :=
  request <> BadBody
  /\ (question_member request = None \/ question_member request = Some JNull).

(** The body's [question] is a string that is empty after trimming. *)
Definition question_blank (request : Request) : Prop :=
  exists s, question_member request = Some (JStr s) /\ trim s = [].

Definition invalid (request : Request) : Prop :=
  unparseable request \/ question_missing request \/ question_blank request.

(** Status 400 with a body of the form [{ error: string }]. *)
Definition is_error_response (c : completion Response) : Prop :=
  exists r msg,
    c = Normal r /\ status r = 400%N /\ body r = JObj [ (lit "error", JStr msg) ].

Definition is_ok_response (c : completion Response) : Prop :=
  exists r, c = Normal r /\ status r = 200%N.

Section Claims.
Variable retrieveLegalKnowledge : jsstring -> nat -> list Result.
Variable buildAnswer : jsstring -> list Result -> Answer.

(** The validation rule as the specification words it: 400 exactly for
    an unparseable body or a missing or blank question, 200 in every
    other case. *)
Definition validation_rule (request : Request) (now : jsstring) : Prop :=
  let c := fst (handle retrieveLegalKnowledge buildAnswer request now) in
  (is_error_response c <-> invalid request)
  /\ (~ invalid request -> is_ok_response c).
End Claims.

(** Bodies of the declared payload type [{ question?: string }], read
    the way the handler reads them: any parsed value but [null], whose
    [question] is absent, [null] or a string. *)
Definition payload_typed (request : Request) : Prop :=
  match request with
  | BadBody => True
  | JsonBody JNull => False
  | JsonBody _ =>
      match question_member request with
      | None | Some JNull | Some (JStr _) => True
      | Some _ => False
      end
  end.

(** A parseable body with a [question] string that is non-empty once
    trimmed. *)
Definition well_formed (request : Request) : Prop :=
  exists s, question_member request = Some (JStr s) /\ trim s <> [].

Definition RESPONSE_KEYS : list jsstring :=
  map lit ["answer"; "results"; "followUps"; "timestamp"]%string.

Definition RESULT_KEYS : list jsstring :=
  map lit ["id"; "title"; "summary"; "excerpt"; "citations"; "sources";
           "score"; "highlights"; "region"; "era"; "type"]%string.

Definition result_shaped (v : json) : Prop :=
  exists props, v = JObj props /\ keys props = RESULT_KEYS.

Definition success_shaped (r : Response) : Prop :=
  status r = 200%N
  /\ exists props items,
       body r = JObj props
       /\ keys props = RESPONSE_KEYS
       /\ own_property props (lit "results") = Some (JArr items)
       /\ Forall result_shaped items.



(** The calls the handler makes once a question passed validation. *)
Definition core_calls (retrieveLegalKnowledge : jsstring -> nat -> list Result)
           (question : jsstring) : list CoreCall :=
  [ CallRetrieve question 5%nat;
    CallBuild question (retrieveLegalKnowledge question 5%nat) ].

Definition limit_is_five (c : CoreCall) : Prop :=
  match c with
  | CallRetrieve _ limit => limit = 5%nat
  | CallBuild _ _ => True
  end.

End Contract.

Module CoreContract.
Import JS Data LegalSearch.













End CoreContract.

(* ====================================================================== *)
(** * The chat page                                                        *)
(* ====================================================================== *)

Module Page.
Import JS.

(** ** Numbers as text *)

(** The digit characters [0-9a-z]. *)
Definition digit_unit (d : N) : code_unit :=
  if (d <? 10)%N then (48 + d)%N else (87 + d)%N.

(** Digits of [n] in the given radix, most significant first, put in
    front of [acc]. *)
Fixpoint digits_from (fuel : nat) (radix n : N) (acc : jsstring) : jsstring :=
  match fuel with
  | O => acc
  | S fuel' =>
      let acc' := digit_unit (n mod radix) :: acc in
      if (n / radix =? 0)%N then acc'
      else digits_from fuel' radix (n / radix) acc'
  end.

Definition natural_toString (radix n : N) : jsstring :=
  digits_from (S (N.size_nat n)) radix n [].

(** [Number.prototype.toString(radix)] on an integer: a minus sign for a
    negative one, then the digits. *)
Definition integer_toString (radix : N) (x : Z) : jsstring :=
  if (x <? 0)%Z then 45%N :: natural_toString radix (Z.abs_N x)
  else natural_toString radix (Z.to_N x).

(** ** Message identifiers *)

(** [messageCounter += 1] on a counter that starts at 0: numbers are
    doubles, so the counter climbs to 2^53 and stays there. *)
Definition increment (messageCounter : N) : N :=
  if (messageCounter <? 2 ^ 53)%N then (messageCounter + 1)%N
  else messageCounter.

(** The template [`msg-${now.toString(36)}-${counter}`]. *)
Definition message_id (now : Z) (counter : N) : jsstring :=
  lit "msg-" ++ integer_toString 36 now ++ lit "-" ++ natural_toString 10 counter.

(** [nextMessageId()], with the module-level [messageCounter] passed in
    and out; [now] is what [Date.now()] returns. *)
Definition nextMessageId (now : Z) (messageCounter : N) : jsstring * N :=
  let messageCounter := increment messageCounter in
  (message_id now messageCounter, messageCounter).

(** ** Objects *)

(** A value held by a message: [undefined] ([None]) or a JSON value. *)
Definition value : Type := option json.

(** An object of the page: its own properties in insertion order. *)
Definition jsobject : Type := list (jsstring * value).

(** Reading a property; an absent one reads as [undefined]. *)
Fixpoint get (o : jsobject) (key : jsstring) : value :=
  match o with
  | [] => None
  | (k, v) :: rest => if jsstring_eqb k key then v else get rest key
  end.

Definition has_key (o : jsobject) (key : jsstring) : bool :=
  existsb (fun kv => jsstring_eqb (fst kv) key) o.

(** Defining a property: an existing one is overwritten in place, a new
    one goes last. *)
Fixpoint set_property (o : jsobject) (key : jsstring) (v : value) : jsobject :=
  match o with
  | [] => [(key, v)]
  | (k, w) :: rest =>
      if jsstring_eqb k key then (k, v) :: rest
      else (k, w) :: set_property rest key v
  end.

(** The object literal [{ ...base, ...extras }]; spreading [undefined]
    adds nothing. *)
Definition spread (base : jsobject) (extras : option jsobject) : jsobject :=
  match extras with
  | None => base
  | Some props =>
      fold_left (fun o kv => set_property o (fst kv) (snd kv)) props base
  end.

(** ** Messages *)

Inductive ChatRole : Type :=
| user
| assistant.

Definition role_name (role : ChatRole) : jsstring :=
  match role with
  | user => lit "user"
  | assistant => lit "assistant"
  end.

(** One reading of the clock inside [createMessage]: [Date.now()] and
    [new Date().toISOString()]. *)
Record Clock : Type := mkClock {
  now_ms : Z;
  now_iso : jsstring
}.

(** [createMessage(role, content, extras)], with [messageCounter] passed
    in and out.  [content] is a value because the page passes
    [data.answer] of an untyped response. *)
Definition createMessage (role : ChatRole) (content : value)
           (extras : option jsobject) (clock : Clock) (messageCounter : N)
  : jsobject * N :=
  let (id, messageCounter) := nextMessageId (now_ms clock) messageCounter in
  (spread [ (lit "id", Some (JStr id));
            (lit "role", Some (JStr (role_name role)));
            (lit "content", content);
            (lit "timestamp", Some (JStr (now_iso clock))) ]
          extras,
   messageCounter).

Definition WELCOME : jsstring :=
  lit "Welcome. I synthesize Black's Law Dictionary entries and lesser-known statutory artifacts to help with historical and doctrinal research. Ask about an obscure regulation, a classic doctrine, or a definition you want unpacked.".

(** ** The component's state *)

Record State : Type := mkState {
  input : jsstring;
  messages : list jsobject;
  isLoading : bool;
  error : option jsstring;      (* [null] is [None] *)
  messageCounter : N            (* the module-level counter *)
}.

(** The function body of [Home] evaluates the argument of
    [useState([createMessage("assistant", ...)])] on every render; only
    the first render keeps the message. *)
Definition welcome_message (clock : Clock) (messageCounter : N) : jsobject * N :=
  createMessage assistant (Some (JStr WELCOME)) None clock messageCounter.

(** The state after the first render. *)
Definition initial (clock : Clock) : State :=
  let (welcome, counter) := welcome_message clock 0 in
  mkState [] [welcome] false None counter.

(** A later render, as far as the state goes: the welcome message is
    built again and dropped, which moves the counter.  The elements the
    render returns are not modelled.  On messages of the declared type
    [ChatMessage] the JSX evaluates without throwing; on other message
    data (an object for [content], a string for [sources]) it can throw,
    React then unmounts the page, and there is no state left to follow. *)
Definition render (st : State) (clock : Clock) : State :=
  mkState (input st) (messages st) (isLoading st) (error st)
          (snd (welcome_message clock (messageCounter st))).

(** [onChange] of the text area, and [handleSuggestionClick]: both are
    [setInput]. *)
Definition setInput (st : State) (text : jsstring) : State :=
  mkState text (messages st) (isLoading st) (error st) (messageCounter st).

Definition handleSuggestionClick (st : State) (suggestion : jsstring) : State :=
  setInput st suggestion.

(** ** Talking to the route *)

(** What can be thrown and caught: an [Error] with its message, or some
    other value. *)
Inductive Thrown : Type :=
| ErrorObject (message : jsstring)
| NotAnError.

(** What [fetch] comes back with: a rejection, or a response with its
    [ok] flag and the outcome of [response.json()]. *)
Inductive FetchOutcome : Type :=
| FetchRejected (err : Thrown)
| FetchResponded (ok : bool) (json_body : Thrown + json).

(** The body [JSON.stringify({ question })] as the route parses it. *)
Definition request_for (question : jsstring) : Route.Request :=
  Route.JsonBody (JObj [ (lit "question", JStr question) ]).

(** [data.answer], [data.results], [data.followUps] on a parsed body
    other than [null]: an object answers with its own property, and no
    other JSON value has a property of these names. *)
Definition read (data : json) (key : jsstring) : value :=
  match data with
  | JObj props => own_property props key
  | _ => None
  end.

(** [err instanceof Error ? err.message : "Unexpected error occurred."] *)
Definition error_text (err : Thrown) : jsstring :=
  match err with
  | ErrorObject message => message
  | NotAnError => lit "Unexpected error occurred."
  end.

Definition NOT_OK : jsstring :=
  lit "The assistant could not process that request.".

Section Submit.

(** The message of the [TypeError] the engine throws for reading a
    property of [null]. *)
Variable null_read_message : jsstring.

(** [handleSubmit] up to the [await fetch(...)]: the guard, the user
    message, the three state updates, and the request that goes out
    ([None] when the guard returns early). *)
Definition submit (st : State) (clock : Clock)
  : State * option Route.Request :=
  if falsy (Some (trim (input st))) || isLoading st then (st, None)
  else
    let (userMessage, counter) :=
      createMessage user (Some (JStr (trim (input st)))) None
                    clock (messageCounter st) in
    (mkState (input st) (messages st ++ [userMessage]) true None counter,
     Some (request_for (trim (input st)))).

(** The [try] block after the fetch has settled: either a thrown value
    or the assistant message appended. *)
Definition receive (st : State) (outcome : FetchOutcome) (clock : Clock)
  : Thrown + State :=
  match outcome with
  | FetchRejected err => inl err
  | FetchResponded false _ => inl (ErrorObject NOT_OK)
  | FetchResponded true (inl err) => inl err
  | FetchResponded true (inr JNull) => inl (ErrorObject null_read_message)
  | FetchResponded true (inr data) =>
      let (assistantMessage, counter) :=
        createMessage assistant (read data (lit "answer"))
                      (Some [ (lit "sources", read data (lit "results"));
                              (lit "followUps", read data (lit "followUps")) ])
                      clock (messageCounter st) in
      inr (mkState (input st) (messages st ++ [assistantMessage])
                   (isLoading st) (error st) counter)
  end.

(** The rest of [handleSubmit]: [try], [catch] and [finally]. *)
Definition settle (st : State) (outcome : FetchOutcome) (clock : Clock)
  : State :=
  let st' :=
    match receive st outcome clock with
    | inr st' => st'
    | inl err =>
        mkState (input st) (messages st) (isLoading st)
                (Some (error_text err)) (messageCounter st)
    end in
  mkState [] (messages st') false (error st') (messageCounter st').

(** One whole run of [handleSubmit] against a given [fetch]: the first
    half, the renders React makes of the page while the request is out
    (the state updates of the first half cause at least one, and each
    moves the counter), and the second half. *)
Definition handleSubmit (fetch : Route.Request -> FetchOutcome)
           (st : State) (sent : Clock) (renders : list Clock)
           (received : Clock) : State :=
  match submit st sent with
  | (st', None) => st'
  | (st', Some request) =>
      settle (fold_left render renders st') (fetch request) received
  end.

End Submit.

(** ** What the page shows *)

(** Truthiness of a value. *)
Definition truthy (v : value) : bool :=
  match v with
  | None => false
  | Some JNull => false
  | Some (JBool b) => b
  | Some (JNum x) => negb (Qeq_bool x 0)
  | Some (JStr s) => match s with [] => false | _ :: _ => true end
  | Some (JArr _) => true
  | Some (JObj _) => true
  end.

(** [message.role === "assistant" && message.sources] *)
Definition shows_sources (message : jsobject) : bool :=
  match get message (lit "role") with
  | Some (JStr r) => jsstring_eqb r (lit "assistant")
  | _ => false
  end
  && truthy (get message (lit "sources")).

(** [[...messages].reverse().find(...)] *)
Definition lastAssistantMessage (messages : list jsobject) : option jsobject :=
  find shows_sources (rev messages).

(** [Array.prototype.join] on strings. *)
Fixpoint join (sep : jsstring) (items : list jsstring) : jsstring :=
  match items with
  | [] => []
  | [x] => x
  | x :: rest => x ++ sep ++ join sep rest
  end.

(** The separator [" • "]. *)
Definition BULLET : jsstring := [32%N; 8226%N; 32%N].

(** [source.citations.join(" • ") || "Citation unavailable"] *)
Definition citation_line (citations : list jsstring) : jsstring :=
  match join BULLET citations with
  | [] => lit "Citation unavailable"
  | line => line
  end.

(** ** The page as a machine *)

Inductive Event : Type :=
| Render (clock : Clock)
| Change (text : jsstring)
| Suggest (suggestion : jsstring)
| Submit (clock : Clock)
| Settled (outcome : FetchOutcome) (clock : Clock).

(** The component's state together with the request in flight. *)
Record Session : Type := mkSession {
  state : State;
  in_flight : option Route.Request
}.

Section Machine.

Variable null_read_message : jsstring.

(** One event.  A handler sees the state of the latest render, and the
    page is rendered again between two events; an answer can only
    arrive for a request in flight. *)
Definition step (s : Session) (e : Event) : Session :=
  match e with
  | Render clock => mkSession (render (state s) clock) (in_flight s)
  | Change text => mkSession (setInput (state s) text) (in_flight s)
  | Suggest suggestion =>
      mkSession (handleSuggestionClick (state s) suggestion) (in_flight s)
  | Submit clock =>
      match submit (state s) clock with
      | (st', Some request) => mkSession st' (Some request)
      | (st', None) => mkSession st' (in_flight s)
      end
  | Settled outcome clock =>
      match in_flight s with
      | Some _ =>
          mkSession (settle null_read_message (state s) outcome clock) None
      | None => s
      end
  end.

Definition run (s : Session) (events : list Event) : Session :=
  fold_left step events s.

Definition start (clock : Clock) : Session := mkSession (initial clock) None.

End Machine.

(** ** The page and the route together *)

(** What the page's [fetch] sees of a response of the route handler:
    [response.ok] is a status from 200 to 299, and [response.json()]
    gives the body back. *)
Definition over_the_wire (r : Route.Response) : FetchOutcome :=
  FetchResponded ((200 <=? Route.status r)%N && (Route.status r <=? 299)%N)
                 (inr (Route.body r)).

Section Wired.

Variable retrieveLegalKnowledge : jsstring -> nat -> list Data.Result.
Variable buildAnswer : jsstring -> list Data.Result -> Data.Answer.

(** What [response.json()] makes of the error page the framework sends
    when the handler throws. *)
Variable error_page : Thrown + json.

(** [fetch("/api/query", { method: "POST", ... })] served by the route
    handler at the time [served]; a handler that throws is answered for
    by the framework, with a status that is not ok. *)
Definition fetch_route (served : jsstring) (request : Route.Request)
  : FetchOutcome :=
  match fst (Route.handle retrieveLegalKnowledge buildAnswer request served) with
  | Normal r => over_the_wire r
  | Throw _ => FetchResponded false error_page
  end.

End Wired.

End Page.

(* ====================================================================== *)
(** * Vocabulary for the statements about the page and the route          *)
(* ====================================================================== *)

Module PageContract.
Import JS Page.

(** The value of a digit character, and of a string of digits. *)
Definition unit_digit (c : code_unit) : N :=
  if (c <? 58)%N then (c - 48)%N else (c - 87)%N.

Definition digits_value (radix : N) (s : jsstring) : N :=
  fold_left (fun a c => (a * radix + unit_digit c)%N) s 0%N.

(** The string holds nothing but whitespace. *)
Definition blank (s : jsstring) : bool := forallb is_white_space s.



Definition id_of (message : jsobject) : value := get message (lit "id").

(** [l] continues [l0]. *)
Definition extends (A : Type) (l0 l : list A) : Prop :=
  exists more, l = l0 ++ more.

(** A message as [handleSubmit] builds it for the researcher. *)
Definition is_user_message (question : jsstring) (m : jsobject) : Prop :=
  get m (lit "role") = Some (JStr (lit "user"))
  /\ get m (lit "content") = Some (JStr question)
  /\ get m (lit "sources") = None
  /\ get m (lit "followUps") = None.

(** A message as [handleSubmit] builds it from a parsed response. *)
Definition is_assistant_message (data : json) (m : jsobject) : Prop :=
  get m (lit "role") = Some (JStr (lit "assistant"))
  /\ get m (lit "content") = read data (lit "answer")
  /\ get m (lit "sources") = read data (lit "results")
  /\ get m (lit "followUps") = read data (lit "followUps").

(** The message carries the identifier made from counter value [c]. *)
Definition stamped (m : jsobject) (c : N) : Prop :=
  exists t, id_of m = Some (JStr (message_id t c)).

(** [lo < c1 < c2 < ... < cn <= hi]. *)
Fixpoint ascending (lo : N) (cs : list N) (hi : N) : Prop :=
  match cs with
  | [] => (lo <= hi)%N
  | c :: rest => (lo < c)%N /\ ascending c rest hi
  end.

(** The messages carry identifiers made from ever higher counter values,
    none above the current one. *)
Definition numbered (st : State) : Prop :=
  exists cs,
    Forall2 stamped (messages st) cs
    /\ ascending 0 cs (messageCounter st).

(** ** The declared types of the page *)

Definition is_string (v : value) : bool :=
  match v with Some (JStr _) => true | _ => false end.

Definition is_number (v : value) : bool :=
  match v with Some (JNum _) => true | _ => false end.

(** [string[]] *)
Definition is_strings (v : value) : bool :=
  match v with
  | Some (JArr items) =>
      forallb (fun i => match i with JStr _ => true | _ => false end) items
  | _ => false
  end.

(** [{ label: string; url: string }] *)
Definition reference_typed (v : json) : bool :=
  match v with
  | JObj props =>
      is_string (own_property props (lit "label"))
      && is_string (own_property props (lit "url"))
  | _ => false
  end.

(** An element of [ChatMessage.sources]. *)
Definition source_typed (v : json) : bool :=
  match v with
  | JObj props =>
      is_string (own_property props (lit "id"))
      && is_string (own_property props (lit "title"))
      && is_string (own_property props (lit "summary"))
      && is_string (own_property props (lit "excerpt"))
      && is_strings (own_property props (lit "citations"))
      && match own_property props (lit "sources") with
         | Some (JArr refs) => forallb reference_typed refs
         | _ => false
         end
      && is_number (own_property props (lit "score"))
      && is_strings (own_property props (lit "highlights"))
      && is_string (own_property props (lit "region"))
      && is_string (own_property props (lit "era"))
      && is_string (own_property props (lit "type"))
  | _ => false
  end.

Definition sources_typed (v : value) : bool :=
  match v with
  | Some (JArr items) => forallb source_typed items
  | _ => false
  end.

(** An optional member: absent, or of its type. *)
Definition optional (check : value -> bool) (v : value) : bool :=
  match v with
  | None => true
  | Some _ => check v
  end.

Definition is_role (v : value) : bool :=
  match v with
  | Some (JStr r) =>
      jsstring_eqb r (lit "user") || jsstring_eqb r (lit "assistant")
  | _ => false
  end.

(** A message of the declared type [ChatMessage]. *)
Definition message_typed (m : jsobject) : bool :=
  is_string (get m (lit "id"))
  && is_role (get m (lit "role"))
  && is_string (get m (lit "content"))
  && is_string (get m (lit "timestamp"))
  && optional sources_typed (get m (lit "sources"))
  && optional is_strings (get m (lit "followUps")).

(** A response body from which [handleSubmit] builds a message of the
    declared type: an object whose [answer] is a string, whose [results],
    if any, are sources and whose [followUps], if any, are strings. *)
Definition body_typed (data : json) : bool :=
  match data with
  | JObj _ =>
      is_string (read data (lit "answer"))
      && optional sources_typed (read data (lit "results"))
      && optional is_strings (read data (lit "followUps"))
  | _ => false
  end.

(** An event that brings no ill-typed message: anything but an ok
    response whose body is neither [null] nor typed. *)
Definition settles_typed (e : Event) : bool :=
  match e with
  | Settled (FetchResponded true (inr JNull)) _ => true
  | Settled (FetchResponded true (inr data)) _ => body_typed data
  | _ => true
  end.

(** The flag [isLoading] tells whether a request is under way, and a
    request under way asks a non-empty, trimmed question. *)
Definition single_flight (s : Session) : Prop :=
  match in_flight s with
  | Some request =>
      isLoading (state s) = true
      /\ exists q, request = request_for q /\ q <> [] /\ trim q = q
  | None => isLoading (state s) = false
  end.

End PageContract.

(* ====================================================================== *)
(** * Sample data for the page                                             *)
(* ====================================================================== *)

Module PageSample.
Import JS Page.

Definition first_render : Clock :=
  mkClock 1700000000000 (lit "2023-11-14T22:13:20.000Z").

Definition sent : Clock :=
  mkClock 1700000005000 (lit "2023-11-14T22:13:25.000Z").

Definition received : Clock :=
  mkClock 1700000005250 (lit "2023-11-14T22:13:25.250Z").

Definition null_read_message : jsstring :=
  lit "Cannot read properties of null (reading 'answer')".

(** The page after the researcher typed a question. *)
Definition typed : State :=
  setInput (initial first_render) (lit "  champerty ").

(** A server that answers with a status that is not ok. *)
Definition fetch_down (request : Route.Request) : FetchOutcome :=
  FetchResponded false (inl NotAnError).

(** The route handler over the sample knowledge base. *)
Definition fetch_sample : Route.Request -> FetchOutcome :=
  fetch_route Sample.retrieve Sample.build (inl NotAnError) Sample.now.

(** A body of the declared type that leaves the optional members out. *)
Definition answer_body : json :=
  JObj [ (lit "answer", JStr (lit "Champerty is an agreement to fund a suit.")) ].

(** A server that answers every request with [answer_body]. *)
Definition fetch_answer (request : Route.Request) : FetchOutcome :=
  FetchResponded true (inr answer_body).

(** The body [{"question": " champerty ", "limit": 100}]. *)
Definition padded_question : Route.Request :=
  Route.JsonBody (JObj [ (lit "question", JStr (lit " champerty "));
                         (lit "limit", JNum 100) ]).

(** A short session: a question asked and answered, a suggestion
    clicked and sent, the answer still out. *)
Definition events : list Event :=
  [ Render first_render;
    Change (lit "  champerty ");
    Submit sent;
    Render sent;
    Settled (fetch_sample (request_for (lit "champerty"))) received;
    Render received;
    Suggest (lit "What should I know about Consideration?");
    Submit received ].

End PageSample.

(* ====================================================================== *)
(** * Facts about strings and JSON objects                                 *)
(* ====================================================================== *)

Section StringFacts.
Import JS.

Lemma jsstring_eqb_eq (a b : jsstring) : jsstring_eqb a b = true <-> a = b.
Proof.
  revert b; induction a as [|x a IH]; intros [|y b]; simpl;
    try (split; [discriminate | discriminate]); try tauto.
  unfold code_unit_eqb. rewrite andb_true_iff, N.eqb_eq, IH.
  split; [intros [-> ->]; reflexivity | intros H; injection H; auto].
Qed.

Lemma jsstring_eqb_refl (a : jsstring) : jsstring_eqb a a = true.
Proof. apply jsstring_eqb_eq; reflexivity. Qed.

Lemma drop_while_suffix p (s : jsstring) :
  exists pre, s = pre ++ drop_while p s.
Proof.
  induction s as [|c s [pre IH]]; simpl.
  - exists []; reflexivity.
  - destruct (p c).
    + exists (c :: pre); simpl; congruence.
    + exists []; reflexivity.
Qed.

Lemma drop_while_head p (s : jsstring) c r :
  drop_while p s = c :: r -> p c = false.
Proof.
  induction s as [|d s IH]; simpl; [discriminate|].
  destruct (p d) eqn:E; [exact IH|].
  intros H; injection H as -> _; exact E.
Qed.

Lemma drop_while_fixed p (s : jsstring) c r :
  s = c :: r -> p c = false -> drop_while p s = s.
Proof. intros -> H; simpl; rewrite H; reflexivity. Qed.

Lemma drop_while_idem p (s : jsstring) :
  drop_while p (drop_while p s) = drop_while p s.
Proof.
  destruct (drop_while p s) as [|c r] eqn:E; [reflexivity|].
  apply (drop_while_fixed p eq_refl), (drop_while_head _ _ E).
Qed.

(** [trimEnd] keeps a prefix of its argument. *)
Lemma trimEnd_prefix (s : jsstring) : exists post, s = trimEnd s ++ post.
Proof.
  unfold trimEnd.
  destruct (drop_while_suffix is_white_space (rev s)) as [pre H].
  exists (rev pre).
  rewrite <- rev_app_distr, <- H, rev_involutive; reflexivity.
Qed.

Lemma trimEnd_idem (s : jsstring) : trimEnd (trimEnd s) = trimEnd s.
Proof.
  unfold trimEnd. rewrite rev_involutive, drop_while_idem; reflexivity.
Qed.

(** Trimming a trimmed string changes nothing. *)
Lemma trim_idempotent (s : jsstring) : trim (trim s) = trim s.
Proof.
  unfold trim at 1.
  assert (H : trimStart (trim s) = trim s).
  { unfold trim.
    destruct (trimEnd (trimStart s)) as [|c r] eqn:E; [reflexivity|].
    destruct (trimEnd_prefix (trimStart s)) as [post Hp].
    rewrite E in Hp. unfold trimStart at 1.
    apply (drop_while_fixed _ eq_refl).
    apply (drop_while_head is_white_space s (r := r ++ post)). exact Hp. }
  rewrite H. unfold trim. apply trimEnd_idem.
Qed.



End StringFacts.

(* ====================================================================== *)
(** * The route handler, case by case                                      *)
(* ====================================================================== *)

Section RouteFacts.
Import JS Data Route Contract.

Variable retrieveLegalKnowledge : jsstring -> nat -> list Result.
Variable buildAnswer : jsstring -> list Result -> Answer.

Lemma handle_bad_body now :
  handle retrieveLegalKnowledge buildAnswer BadBody now =
  (Normal (mkResponse 400 (JObj [ (lit "error", str "Invalid JSON payload") ])),
   []).
Proof. reflexivity. Qed.

Lemma handle_null_body now :
  handle retrieveLegalKnowledge buildAnswer (JsonBody JNull) now = (Throw TypeError, []).
Proof. reflexivity. Qed.

Lemma handle_missing v now :
  v <> JNull ->
  question_member (JsonBody v) = None
  \/ question_member (JsonBody v) = Some JNull ->
  handle retrieveLegalKnowledge buildAnswer (JsonBody v) now =
  (Normal (mkResponse 400 (JObj [ (lit "error", str "Question is required") ])),
   []).
Proof.
  intros Hv H. unfold handle, POST, bind, lift, ret.
  destruct v; try congruence; try reflexivity.
  simpl in *. destruct H as [-> | ->]; reflexivity.
Qed.

Lemma handle_blank request s now :
  question_member request = Some (JStr s) ->
  trim s = [] ->
  handle retrieveLegalKnowledge buildAnswer request now =
  (Normal (mkResponse 400 (JObj [ (lit "error", str "Question is required") ])),
   []).
Proof.
  intros H Ht. destruct request as [|[]]; try discriminate.
  unfold handle, POST, bind, lift, ret. simpl in *.
  rewrite H. simpl. rewrite Ht. reflexivity.
Qed.

Lemma handle_question request s now :
  question_member request = Some (JStr s) ->
  trim s <> [] ->
  handle retrieveLegalKnowledge buildAnswer request now =
  (Normal
     (mkResponse 200
        (JObj [ (lit "answer",
                 JStr (answer (buildAnswer (trim s)
                                 (retrieveLegalKnowledge (trim s) 5%nat))));
                (lit "results",
                 JArr (map project (retrieveLegalKnowledge (trim s) 5%nat)));
                (lit "followUps",
                 strings_json
                   (followUps (buildAnswer (trim s)
                                 (retrieveLegalKnowledge (trim s) 5%nat))));
                (lit "timestamp", JStr now) ])),
   core_calls retrieveLegalKnowledge (trim s)).
Proof.
  intros H Ht. destruct request as [|[]]; try discriminate.
  unfold handle, POST, bind, lift, ret, call_retrieve, call_build, tell, bind, ret.
  simpl in *. rewrite H. simpl.
  destruct (trim s) as [|c q]; [congruence|]. reflexivity.
Qed.

Lemma handle_mistyped request v now :
  question_member request = Some v ->
  v <> JNull -> (forall s, v <> JStr s) ->
  handle retrieveLegalKnowledge buildAnswer request now = (Throw TypeError, []).
Proof.
  intros H Hn Hs. destruct request as [|[]]; try discriminate.
  unfold handle, POST, bind, lift. simpl in *. rewrite H.
  destruct v; try reflexivity; [congruence | exfalso; eapply Hs; reflexivity].
Qed.

(** Every way a run can end; which one is decided by the request
    alone. *)
Lemma handle_cases request :
  (forall now,
      handle retrieveLegalKnowledge buildAnswer request now =
      (Normal (mkResponse 400 (JObj [ (lit "error", str "Invalid JSON payload") ])), []))
    /\ request = BadBody
  \/ (forall now, handle retrieveLegalKnowledge buildAnswer request now = (Throw TypeError, []))
     /\ ~ payload_typed request
  \/ (forall now,
         handle retrieveLegalKnowledge buildAnswer request now =
         (Normal (mkResponse 400 (JObj [ (lit "error", str "Question is required") ])), []))
     /\ (question_missing request \/ question_blank request)
  \/ exists s,
       question_member request = Some (JStr s)
       /\ trim s <> [].
Proof.
  destruct request as [|v]; [left; split; reflexivity|]. right.
  destruct (question_member (JsonBody v)) as [w|] eqn:E.
  - destruct v; try discriminate.
    assert (Hobj : JsonBody (JObj props) <> BadBody) by discriminate.
    destruct w.
    + right; left. split; [intros now; apply handle_missing; [discriminate | auto]|].
      left. split; auto.
    + left. split; [intros now; eapply handle_mistyped; eauto; congruence|].
      unfold payload_typed. rewrite E. tauto.
    + left. split; [intros now; eapply handle_mistyped; eauto; congruence|].
      unfold payload_typed. rewrite E. tauto.
    + destruct (trim s) as [|c q] eqn:Et.
      * right; left. split; [intros now; eapply handle_blank; eauto|].
        right. exists s. auto.
      * right; right. exists s. rewrite Et. split; [reflexivity | discriminate].
    + left. split; [intros now; eapply handle_mistyped; eauto; congruence|].
      unfold payload_typed. rewrite E. tauto.
    + left. split; [intros now; eapply handle_mistyped; eauto; congruence|].
      unfold payload_typed. rewrite E. tauto.
  - destruct v.
    1: { left. split; [reflexivity | simpl; tauto]. }
    all: right; left;
      (split; [intros now; apply handle_missing; [discriminate | auto]|]);
      left; (split; [discriminate | auto]).
Qed.


(** The log of a run is empty, or holds the two calls on the trimmed
    question. *)
Lemma handle_log request now :
  snd (handle retrieveLegalKnowledge buildAnswer request now) = []
  \/ exists s,
       question_member request = Some (JStr s)
       /\ trim s <> []
       /\ snd (handle retrieveLegalKnowledge buildAnswer request now) = core_calls retrieveLegalKnowledge (trim s).
Proof.
  destruct (handle_cases request)
    as [[E _] | [[E _] | [[E _] | [s [Hq Hs]]]]];
    try (left; rewrite E; reflexivity).
  right. exists s. rewrite (handle_question request now Hq Hs). auto.
Qed.

End RouteFacts.

(* ====================================================================== *)
(** * The adapter's contract                                               *)
(* ====================================================================== *)

Section RouteContract.
Import JS Data Route Contract.

Variable retrieveLegalKnowledge : jsstring -> nat -> list Result.
Variable buildAnswer : jsstring -> list Result -> Answer.

Lemma well_formed_valid request :
  well_formed request -> ~ invalid request.
Proof.
  intros [s [H Ht]] [Hu | [[_ [Hm | Hm]] | [s' [Hb Hb']]]].
  - rewrite Hu in H. discriminate.
  - congruence.
  - congruence.
  - rewrite H in Hb. injection Hb as <-. contradiction.
Qed.

(** C1 (amended): for every POST request whose body is unparseable, or
    parses to a value of the declared payload type (not [null], with
    [question] absent, [null] or a string), the handler answers 400
    with a body [{ error: string }] exactly when the body is
    unparseable or its [question] is missing or empty after trimming,
    and answers 200 in every other case. *)
Theorem POST_validation request now :
  payload_typed request ->
  validation_rule retrieveLegalKnowledge buildAnswer request now.
Proof.
  intros Ht. unfold validation_rule; cbv zeta.
  destruct (handle_cases retrieveLegalKnowledge buildAnswer request)
    as [[E Hb] | [[E Hn] | [[E Hi] | [s [Hq Hs]]]]].
  - rewrite E; simpl. split.
    + split; [intros _; left; exact Hb|].
      intros _. eexists _, _. repeat split.
    + intros Hv. exfalso. apply Hv. left. exact Hb.
  - contradiction.
  - rewrite E; simpl. split.
    + split; [intros _; right; exact Hi|].
      intros _. eexists _, _. repeat split.
    + intros Hv. exfalso. apply Hv. right. exact Hi.
  - assert (Hv : ~ invalid request)
      by (apply well_formed_valid; exists s; auto).
    rewrite (handle_question retrieveLegalKnowledge buildAnswer request now Hq Hs).
    simpl. split.
    + split; [|intros Hi; contradiction].
      intros [r [msg [Hr [Hst _]]]]. injection Hr as <-. discriminate.
    + intros _. eexists. split; reflexivity.
Qed.

(** Outside the declared payload type the handler throws: on the body
    [null], and on a [question] that is neither [null] nor a string. *)
Lemma POST_untyped_throws request now :
  ~ payload_typed request ->
  handle retrieveLegalKnowledge buildAnswer request now = (Throw TypeError, []).
Proof.
  intros Hn.
  destruct request as [|v]; [exfalso; apply Hn; exact I|].
  destruct v; try (exfalso; apply Hn; exact I); [reflexivity|].
  destruct (question_member (JsonBody (JObj props))) as [w|] eqn:E;
    unfold payload_typed in Hn; rewrite E in Hn;
    [|exfalso; apply Hn; exact I].
  apply (handle_mistyped _ _ _ now E);
    [intros -> | intros s ->]; apply Hn; exact I.
Qed.

(** C2: for every well-formed POST request (a parseable body whose
    [question] is a string, non-empty once trimmed) the handler
    answers 200 with an object whose keys are exactly [answer],
    [results], [followUps], [timestamp], [results] being an array of
    objects that each have exactly the eleven result fields. *)
Theorem POST_success_shape request now :
  well_formed request ->
  exists r, fst (handle retrieveLegalKnowledge buildAnswer request now) = Normal r /\ success_shaped r.
Proof.
  intros [s [Hq Hs]].
  rewrite (handle_question retrieveLegalKnowledge buildAnswer request now Hq Hs).
  eexists. split; [reflexivity|]. split; [reflexivity|].
  eexists _, _. repeat split.
  apply Forall_forall. intros v Hin.
  apply in_map_iff in Hin. destruct Hin as [r [<- _]].
  eexists. split; reflexivity.
Qed.



(** C10: whenever the handler reaches the core it makes exactly two
    calls, [retrieveLegalKnowledge(q, 5)] and then
    [buildAnswer(q, results)], with one and the same [q]: the request's
    [question] after trimming, which is non-empty and unchanged by a
    further trim. *)
Theorem POST_core_question request now :
  snd (handle retrieveLegalKnowledge buildAnswer request now) = []
  \/ exists s,
       question_member request = Some (JStr s)
       /\ trim s <> []
       /\ trim (trim s) = trim s
       /\ snd (handle retrieveLegalKnowledge buildAnswer request now) =
          [ CallRetrieve (trim s) 5%nat;
            CallBuild (trim s) (retrieveLegalKnowledge (trim s) 5%nat) ].
Proof.
  destruct (handle_log retrieveLegalKnowledge buildAnswer request now)
    as [E | [s [Hq [Hs E]]]]; [left; exact E|].
  right. exists s. repeat split; auto using trim_idempotent.
Qed.

(** The handler never asks for any limit but 5. *)
Lemma POST_limit request now :
  Forall limit_is_five (snd (handle retrieveLegalKnowledge buildAnswer request now)).
Proof.
  destruct (handle_log retrieveLegalKnowledge buildAnswer request now)
    as [-> | [s [_ [_ ->]]]].
  - constructor.
  - repeat constructor.
Qed.

End RouteContract.

(* ====================================================================== *)
(** * Facts about the ranker                                               *)
(* ====================================================================== *)

Section RankFacts.
Import JS Data LegalSearch.

Lemma firstn_incl {A} (n : nat) (l : list A) x :
  In x (firstn n l) -> In x l.
Proof.
  revert l; induction n as [|n IH]; intros [|y l]; simpl; try tauto.
  intros [H | H]; [left; exact H | right; apply IH; exact H].
Qed.

Lemma insert_desc_perm x l : Permutation (x :: l) (insert_desc x l).
Proof.
  induction l as [|y l IH]; simpl; [reflexivity|].
  destruct (Qle_bool (snd y) (snd x)); [reflexivity|].
  rewrite perm_swap. apply perm_skip. exact IH.
Qed.

Lemma sort_desc_perm l : Permutation l (sort_desc l).
Proof.
  induction l as [|x l IH]; simpl; [reflexivity|].
  rewrite <- insert_desc_perm. apply perm_skip. exact IH.
Qed.

Lemma positive_spec (x : Scored) : positive x = true <-> 0 < snd x.
Proof.
  unfold positive. rewrite negb_true_iff.
  split.
  - intros H. apply Qnot_le_lt. intros Hle.
    apply Qle_bool_iff in Hle. congruence.
  - intros H. destruct (Qle_bool (snd x) 0) eqn:E; [|reflexivity].
    apply Qle_bool_iff in E. exfalso. eapply Qlt_not_le; eauto.
Qed.

Lemma rank_length scored limit : (List.length (rank scored limit) <= limit)%nat.
Proof. unfold rank. apply firstn_le_length. Qed.

Lemma rank_In scored limit x :
  In x (rank scored limit) -> In x scored /\ 0 < snd x.
Proof.
  unfold rank. intros H. apply firstn_incl in H.
  apply (Permutation_in _ (Permutation_sym (sort_desc_perm _))) in H.
  apply filter_In in H. destruct H as [H Hp].
  split; [exact H | apply positive_spec; exact Hp].
Qed.

End RankFacts.

(* ====================================================================== *)
(** * Facts about the scoring engine                                       *)
(* ====================================================================== *)

Section ScoreFacts.
Import JS Data LegalSearch CoreContract.




End ScoreFacts.

(* ====================================================================== *)
(** * The core's contract                                                  *)
(* ====================================================================== *)

Section CoreFacts.
Import JS Data LegalSearch CoreContract.

Variable cfg : Config.

Lemma retrieve_In {scorer : Scorer} kb question limit (r : Result) :
  In r (retrieveLegalKnowledge cfg kb question limit) ->
  In (entry r) kb
  /\ 0 < score r
  /\ highlights r = extractHighlights cfg (normalize cfg question) r.
Proof.
  unfold retrieveLegalKnowledge. intros H.
  apply in_map_iff in H. destruct H as [[e sc] [<- H]].
  apply rank_In in H. destruct H as [H Hpos]. simpl in *.
  apply in_map_iff in H. destruct H as [e' [E He']].
  injection E as -> _. auto.
Qed.



Lemma follow_up_differs kb question results s :
  In s (generateFollowUps cfg question results kb) ->
  equal_ignoring_case cfg s question = false.
Proof.
  unfold generateFollowUps. destruct results as [|top rest]; [intros []|].
  intros H. apply firstn_incl in H. apply filter_In in H.
  destruct H as [_ H]. apply negb_true_iff in H. exact H.
Qed.
End CoreFacts.

(* ====================================================================== *)
(** * The ranker's contract                                                *)
(* ====================================================================== *)

Section RankerContract.
Import JS Data LegalSearch CoreContract.














End RankerContract.

Section CoreContractTheorems.
Import JS Data LegalSearch CoreContract Contract.

Variable cfg : Config.

(** C3: [retrieveLegalKnowledge(q, n)] returns at most [n] results,
    each of score strictly above 0, whatever the scorer; and the
    handler asks for no limit but 5. *)
Theorem retrieve_cardinality {scorer : Scorer} kb question limit :
  (List.length (retrieveLegalKnowledge cfg kb question limit) <= limit)%nat
  /\ Forall (fun r : Result => 0 < score r)
            (retrieveLegalKnowledge cfg kb question limit)
  /\ forall request now,
       Forall limit_is_five (snd (App.handle cfg kb request now)).
Proof.
  split; [|split].
  - unfold retrieveLegalKnowledge. rewrite length_map. apply rank_length.
  - apply Forall_forall. intros r Hr. apply retrieve_In in Hr. apply Hr.
  - intros request now. apply POST_limit.
Qed.



(** C8: no follow-up suggestion equals the original question up to
    letter case: none is lowercased by the platform to the string the
    question is lowercased to. *)
Theorem followUps_exclude_query kb question results s :
  In s (followUps (buildAnswer cfg kb question results)) ->
  equal_ignoring_case cfg s question = false
  /\ lowercase cfg s <> lowercase cfg question.
Proof.
  simpl. intros H. apply follow_up_differs in H. split; [exact H|].
  intros E. unfold equal_ignoring_case in H.
  rewrite E, jsstring_eqb_refl in H. discriminate.
Qed.

End CoreContractTheorems.

(* ====================================================================== *)
(** * The contract at work on the sample data                              *)
(* ====================================================================== *)

Section Instances.
Import JS Data Route Contract CoreContract.

(** C1 as the specification words it fails on the body
    [{"question": 5}]: the question is neither missing nor blank, yet
    the handler throws a [TypeError] instead of answering 200. *)
Lemma POST_validation_counterexample :
  ~ validation_rule Sample.retrieve Sample.build
      Sample.numeric_question Sample.now.
Proof.
  intros [_ H].
  assert (V : ~ invalid Sample.numeric_question).
  { intros [Hu | [[_ [Hm | Hm]] | [s [Hb _]]]]; discriminate. }
  destruct (H V) as [r [Hr _]]. vm_compute in Hr. discriminate.
Qed.

Lemma POST_validation_witness :
  payload_typed (Sample.question_body " champerty ")
  /\ validation_rule Sample.retrieve Sample.build
       (Sample.question_body " champerty ") Sample.now.
Proof.
  split; [exact I|].
  apply (@POST_validation Sample.retrieve Sample.build
           (Sample.question_body " champerty ") Sample.now).
  exact I.
Defined.

Lemma POST_success_shape_witness :
  well_formed (Sample.question_body " champerty ")
  /\ exists r,
       fst (handle Sample.retrieve Sample.build
              (Sample.question_body " champerty ") Sample.now) = Normal r
       /\ success_shaped r.
Proof.
  assert (W : well_formed (Sample.question_body " champerty ")).
  { exists (lit " champerty "). split; [reflexivity|]. vm_compute. discriminate. }
  split; [exact W|].
  apply (@POST_success_shape Sample.retrieve Sample.build
           (Sample.question_body " champerty ") Sample.now W).
Defined.




Lemma followUps_exclude_query_witness :
  In (lit "What should I know about Maintenance?")
     (followUps (LegalSearch.buildAnswer Sample.config Sample.wider_knowledgeBase
                   Sample.suggestion_in_lowercase
                   (Sample.retrieve (lit "champerty") 5)))
  /\ ~ In (lit "What should I know about Consideration?")
          (followUps (LegalSearch.buildAnswer Sample.config
                        Sample.wider_knowledgeBase
                        Sample.suggestion_in_lowercase
                        (Sample.retrieve (lit "champerty") 5)))
  /\ In (lit "What should I know about Consideration?")
        (followUps (LegalSearch.buildAnswer Sample.config
                      Sample.wider_knowledgeBase (lit "champerty")
                      (Sample.retrieve (lit "champerty") 5)))
  /\ LegalSearch.lowercase Sample.config
       (lit "What should I know about Maintenance?")
     <> LegalSearch.lowercase Sample.config Sample.suggestion_in_lowercase.
Proof.
  assert (H : In (lit "What should I know about Maintenance?")
                 (followUps (LegalSearch.buildAnswer Sample.config
                               Sample.wider_knowledgeBase
                               Sample.suggestion_in_lowercase
                               (Sample.retrieve (lit "champerty") 5))))
    by (vm_compute; left; reflexivity).
  split; [exact H|].
  split; [vm_compute; intros [E | []]; discriminate E|].
  split; [vm_compute; left; reflexivity|].
  apply (@followUps_exclude_query Sample.config Sample.wider_knowledgeBase
           Sample.suggestion_in_lowercase (Sample.retrieve (lit "champerty") 5)
           (lit "What should I know about Maintenance?") H).
Defined.

End Instances.

(* ====================================================================== *)
(** * Numbers as text                                                      *)
(* ====================================================================== *)

Section NumberFacts.
Import JS Page PageContract.

Lemma unit_digit_unit d : unit_digit (digit_unit d) = d.
Proof.
  unfold unit_digit, digit_unit.
  destruct (N.ltb_spec d 10).
  - destruct (N.ltb_spec (48 + d) 58); lia.
  - destruct (N.ltb_spec (87 + d) 58); lia.
Qed.

Lemma digit_unit_not_minus d : digit_unit d <> 45%N.
Proof. unfold digit_unit. destruct (N.ltb_spec d 10); lia. Qed.

Lemma size_nat_bound n : (n < 2 ^ N.of_nat (N.size_nat n))%N.
Proof.
  destruct n as [|p]; simpl; [lia|].
  induction p as [p IH | p IH |]; cbn [Pos.size_nat].
  - rewrite Nat2N.inj_succ, N.pow_succ_r'. lia.
  - rewrite Nat2N.inj_succ, N.pow_succ_r'. lia.
  - simpl. lia.
Qed.

Lemma digits_from_step fuel radix n acc :
  digits_from (S fuel) radix n acc =
  if (n / radix =? 0)%N then digit_unit (n mod radix) :: acc
  else digits_from fuel radix (n / radix) (digit_unit (n mod radix) :: acc).
Proof. reflexivity. Qed.

(** With fuel to spare, [digits_from] puts in front of [acc] a non-empty
    run of digit characters whose value is [n]. *)
Lemma digits_from_spec radix :
  (2 <= radix)%N ->
  forall k n acc,
    (n < 2 ^ N.of_nat k)%N ->
    exists ds,
      digits_from (S k) radix n acc = ds ++ acc
      /\ ds <> []
      /\ digits_value radix ds = n
      /\ Forall (fun c => c <> 45%N) ds.
Proof.
  intros Hr. induction k as [|k IH]; intros n acc Hn.
  - assert (n = 0%N) by (simpl in Hn; lia). subst n.
    exists [digit_unit 0]. rewrite digits_from_step.
    rewrite N.Div0.div_0_l, N.Div0.mod_0_l. simpl.
    repeat split; try discriminate. repeat constructor. discriminate.
  - rewrite digits_from_step.
    destruct (N.eqb_spec (n / radix) 0) as [E | E].
    + exists [digit_unit (n mod radix)]. repeat split; try discriminate.
      * unfold digits_value. simpl. rewrite unit_digit_unit.
        apply N.div_small_iff in E; [|lia]. apply N.mod_small. exact E.
      * repeat constructor. apply digit_unit_not_minus.
    + assert (Hq : (n / radix < 2 ^ N.of_nat k)%N).
      { rewrite Nat2N.inj_succ, N.pow_succ_r' in Hn.
        apply N.Div0.div_lt_upper_bound. nia. }
      destruct (IH (n / radix)%N (digit_unit (n mod radix) :: acc) Hq)
        as [ds [E1 [E2 [E3 E4]]]].
      exists (ds ++ [digit_unit (n mod radix)]).
      rewrite E1, <- app_assoc. repeat split.
      * intros C. apply app_eq_nil in C. destruct C; discriminate.
      * unfold digits_value in *. rewrite fold_left_app. simpl.
        rewrite E3, unit_digit_unit.
        rewrite N.mul_comm. symmetry. apply N.div_mod. lia.
      * apply Forall_app. split; [exact E4|].
        repeat constructor. apply digit_unit_not_minus.
Qed.

Lemma natural_toString_spec radix n :
  (2 <= radix)%N ->
  natural_toString radix n <> []
  /\ digits_value radix (natural_toString radix n) = n
  /\ Forall (fun c => c <> 45%N) (natural_toString radix n).
Proof.
  intros Hr. unfold natural_toString.
  destruct (@digits_from_spec radix Hr (N.size_nat n) n [] (size_nat_bound n))
    as [ds [E1 [E2 [E3 E4]]]].
  rewrite E1, app_nil_r. auto.
Qed.

Lemma natural_toString_inj radix n m :
  (2 <= radix)%N ->
  natural_toString radix n = natural_toString radix m -> n = m.
Proof.
  intros Hr E.
  rewrite <- (proj1 (proj2 (@natural_toString_spec radix n Hr))).
  rewrite <- (proj1 (proj2 (@natural_toString_spec radix m Hr))).
  rewrite E. reflexivity.
Qed.

Lemma integer_toString_inj radix x y :
  (2 <= radix)%N ->
  integer_toString radix x = integer_toString radix y -> x = y.
Proof.
  intros Hr. unfold integer_toString.
  destruct (Z.ltb_spec x 0), (Z.ltb_spec y 0); intros E.
  - injection E as E. apply (@natural_toString_inj radix _ _ Hr) in E. lia.
  - exfalso.
    destruct (@natural_toString_spec radix (Z.to_N y) Hr) as [_ [_ F]].
    rewrite <- E in F. inversion F. congruence.
  - exfalso.
    destruct (@natural_toString_spec radix (Z.to_N x) Hr) as [_ [_ F]].
    rewrite E in F. inversion F. congruence.
  - apply (@natural_toString_inj radix _ _ Hr) in E. lia.
Qed.

(** Cutting at the last occurrence of a separator. *)
Lemma split_at_last (x : code_unit) l1 r1 l2 r2 :
  l1 ++ x :: r1 = l2 ++ x :: r2 ->
  ~ In x r1 -> ~ In x r2 ->
  l1 = l2 /\ r1 = r2.
Proof.
  revert l2. induction l1 as [|a l1 IH]; intros [|b l2] E H1 H2; simpl in E.
  - injection E as E. auto.
  - injection E as _ E. exfalso. apply H1. rewrite E.
    apply in_or_app. right. left. reflexivity.
  - injection E as _ E. exfalso. apply H2. rewrite <- E.
    apply in_or_app. right. left. reflexivity.
  - injection E as -> E. destruct (IH l2 E H1 H2) as [-> ->]. auto.
Qed.

Lemma message_id_inj t1 c1 t2 c2 :
  message_id t1 c1 = message_id t2 c2 -> t1 = t2 /\ c1 = c2.
Proof.
  unfold message_id. intros E. apply app_inv_head in E.
  assert (R : (2 <= 36)%N /\ (2 <= 10)%N) by lia. destruct R as [R36 R10].
  change (lit "-") with [45%N] in E. simpl app in E.
  assert (F : forall c, ~ In 45%N (natural_toString 10 c)).
  { intros c Hin.
    destruct (@natural_toString_spec 10 c R10) as [_ [_ F]].
    rewrite Forall_forall in F. apply (F _ Hin). reflexivity. }
  apply split_at_last in E; [|apply F|apply F].
  destruct E as [E1 E2]. split.
  - apply (@integer_toString_inj 36 _ _ R36 E1).
  - apply (@natural_toString_inj 10 _ _ R10 E2).
Qed.

End NumberFacts.

(* ====================================================================== *)
(** * More on trimming                                                     *)
(* ====================================================================== *)

Section TrimFacts.
Import JS PageContract.

Lemma drop_while_split p (s : jsstring) :
  exists pre, s = pre ++ drop_while p s /\ forallb p pre = true.
Proof.
  induction s as [|c s [pre [E F]]]; simpl.
  - exists []; auto.
  - destruct (p c) eqn:Ec.
    + exists (c :: pre); simpl. rewrite Ec, F. split; [congruence | reflexivity].
    + exists []; auto.
Qed.

Lemma drop_while_nil p (s : jsstring) :
  drop_while p s = [] <-> forallb p s = true.
Proof.
  induction s as [|c s IH]; simpl; [tauto|].
  destruct (p c); simpl; [exact IH|]. split; discriminate.
Qed.

Lemma forallb_rev {A} (p : A -> bool) l : forallb p (rev l) = forallb p l.
Proof.
  induction l as [|x l IH]; simpl; [reflexivity|].
  rewrite forallb_app, IH. simpl. rewrite andb_true_r. apply andb_comm.
Qed.

(** A string trims to nothing exactly when it holds only whitespace. *)
Lemma trim_blank s : trim s = [] <-> blank s = true.
Proof.
  unfold trim, trimEnd, trimStart, blank.
  destruct (drop_while_split is_white_space s) as [pre [E F]].
  split.
  - intros H. apply (f_equal (@rev code_unit)) in H.
    rewrite rev_involutive in H. simpl in H.
    apply drop_while_nil in H. rewrite forallb_rev in H.
    rewrite E, forallb_app, F, H. reflexivity.
  - intros H. apply drop_while_nil in H. rewrite H. reflexivity.
Qed.

(** Trimming removes whitespace at the two ends and nothing else. *)
Lemma trim_decompose s :
  exists pre post,
    s = pre ++ trim s ++ post /\ blank pre = true /\ blank post = true.
Proof.
  unfold trim, trimEnd, trimStart, blank.
  destruct (drop_while_split is_white_space s) as [pre [E F]].
  destruct (drop_while_split is_white_space
              (rev (drop_while is_white_space s))) as [post [E' F']].
  exists pre, (rev post). repeat split.
  - rewrite <- rev_app_distr, <- E', rev_involutive. exact E.
  - exact F.
  - rewrite forallb_rev. exact F'.
Qed.

(** What is left after trimming begins and ends with something that is
    not whitespace. *)
Lemma trim_ends s c r :
  trim s = c :: r ->
  is_white_space c = false /\ is_white_space (last r c) = false.
Proof.
  unfold trim. intros H. split.
  - destruct (trimEnd_prefix (trimStart s)) as [post Hp].
    rewrite H in Hp. unfold trimStart in Hp.
    apply (drop_while_head is_white_space s (r := r ++ post)). exact Hp.
  - unfold trimEnd in H.
    destruct (drop_while is_white_space (rev (trimStart s))) as [|d u] eqn:E;
      [discriminate|].
    apply drop_while_head in E. simpl in H.
    assert (L : last (c :: r) c = d) by (rewrite <- H; apply last_last).
    replace (last r c) with d; [exact E|].
    rewrite <- L. destruct r; reflexivity.
Qed.

End TrimFacts.

(* ====================================================================== *)
(** * More on the route handler                                            *)
(* ====================================================================== *)

Section RouteBehaviour.
Import JS Data Route Contract PageContract.

Variable retrieveLegalKnowledge : jsstring -> nat -> list Result.
Variable buildAnswer : jsstring -> list Result -> Answer.

Lemma missing_or_blank_not_well_formed request :
  question_missing request \/ question_blank request -> ~ well_formed request.
Proof.
  intros H W. apply (well_formed_valid W). right. exact H.
Qed.

(** X1: the handler answers 400 with the message "Invalid JSON payload"
    exactly when the body does not parse, and 400 with the message
    "Question is required" exactly when the body parses to a value of
    the payload type whose question is missing or blank; in both cases
    the core has not been called. *)
Theorem POST_error_messages request now :
  (handle retrieveLegalKnowledge buildAnswer request now
   = (Normal (mkResponse 400
                (JObj [ (lit "error", str "Invalid JSON payload") ])), [])
   <-> unparseable request)
  /\ (handle retrieveLegalKnowledge buildAnswer request now
      = (Normal (mkResponse 400
                   (JObj [ (lit "error", str "Question is required") ])), [])
      <-> payload_typed request
          /\ (question_missing request \/ question_blank request)).
Proof.
  destruct (handle_cases retrieveLegalKnowledge buildAnswer request)
    as [[E Hb] | [[E Hn] | [[E Hi] | [s [Hq Hs]]]]].
  - rewrite E. split; [tauto|]. split.
    + intros H. exfalso. vm_compute in H. discriminate H.
    + intros [_ [[Hne _] | [s [Hm _]]]]; [contradiction|].
      rewrite Hb in Hm. discriminate.
  - rewrite E. split; (split; [discriminate|]).
    + intros Hb. exfalso. apply Hn. rewrite Hb. exact I.
    + tauto.
  - rewrite E. split.
    + split.
      * intros H. exfalso. vm_compute in H. discriminate H.
      * intros Hb. exfalso. destruct Hi as [[Hne _] | [s [Hm _]]];
          [contradiction|]. rewrite Hb in Hm. discriminate.
    + split; [|reflexivity]. intros _. split; [|exact Hi].
      destruct request as [|v]; [exact I|].
      destruct v; try exact I.
      * specialize (E now). discriminate.
      * unfold payload_typed.
        destruct Hi as [[_ [Hm | Hm]] | [s [Hm _]]]; rewrite Hm; exact I.
  - rewrite (handle_question retrieveLegalKnowledge buildAnswer request now Hq Hs).
    assert (W : well_formed request) by (exists s; auto).
    split; (split; [discriminate|]).
    + intros Hb. rewrite Hb in Hq. discriminate.
    + intros [_ Hi]. exfalso.
      exact (missing_or_blank_not_well_formed Hi W).
Qed.

(** X2: the handler throws exactly when the parsed body is [null] or
    carries a [question] that is neither [null] nor a string; what it
    throws is a [TypeError], and the core has not been called. *)
Theorem POST_throws request now :
  ((exists e, fst (handle retrieveLegalKnowledge buildAnswer request now)
              = Throw e)
   <-> ~ payload_typed request)
  /\ (~ payload_typed request ->
      handle retrieveLegalKnowledge buildAnswer request now
      = (Throw TypeError, [])).
Proof.
  split.
  - split.
    + intros [e He].
      destruct (handle_cases retrieveLegalKnowledge buildAnswer request)
        as [[E Hb] | [[E Hn] | [[E Hi] | [s [Hq Hs]]]]];
        try (rewrite E in He; discriminate); [exact Hn|].
      rewrite (handle_question retrieveLegalKnowledge buildAnswer request now Hq Hs)
        in He. discriminate.
    + intros Hn. exists TypeError.
      rewrite (POST_untyped_throws retrieveLegalKnowledge buildAnswer request now Hn).
      reflexivity.
  - apply POST_untyped_throws.
Qed.

(** X3: the handler answers 200 exactly for a well-formed request, and
    it calls the core exactly then: a rejected request costs no
    retrieval. *)
Theorem POST_core_only_on_success request now :
  (is_ok_response (fst (handle retrieveLegalKnowledge buildAnswer request now))
   <-> well_formed request)
  /\ (snd (handle retrieveLegalKnowledge buildAnswer request now) <> []
      <-> well_formed request).
Proof.
  destruct (handle_cases retrieveLegalKnowledge buildAnswer request)
    as [[E Hb] | [[E Hn] | [[E Hi] | [s [Hq Hs]]]]].
  - rewrite E. simpl. split; split.
    + intros [r [Hr Hst]]. injection Hr as <-. discriminate.
    + intros [s [Hm _]]. rewrite Hb in Hm. discriminate.
    + congruence.
    + intros [s [Hm _]]. rewrite Hb in Hm. discriminate.
  - rewrite E. simpl. split; split.
    + intros [r [Hr _]]. discriminate.
    + intros [s [Hm _]]. exfalso. apply Hn.
      destruct request as [|[]]; try discriminate.
      unfold payload_typed. rewrite Hm. exact I.
    + congruence.
    + intros [s [Hm _]]. exfalso. apply Hn.
      destruct request as [|[]]; try discriminate.
      unfold payload_typed. rewrite Hm. exact I.
  - rewrite E. simpl. split; split.
    + intros [r [Hr Hst]]. injection Hr as <-. discriminate.
    + intros W. exfalso. exact (missing_or_blank_not_well_formed Hi W).
    + congruence.
    + intros W. exfalso. exact (missing_or_blank_not_well_formed Hi W).
  - assert (W : well_formed request) by (exists s; auto).
    rewrite (handle_question retrieveLegalKnowledge buildAnswer request now Hq Hs).
    simpl. split; split; auto.
    + intros _. eexists. split; reflexivity.
    + intros _. discriminate.
Qed.

(** X4: the handler reads nothing of the body but its [question], and
    of that only what trimming leaves: two bodies whose questions trim
    to the same string get the same response and cause the same calls. *)
Theorem POST_reads_only_question request1 request2 s1 s2 now :
  question_member request1 = Some (JStr s1) ->
  question_member request2 = Some (JStr s2) ->
  trim s1 = trim s2 ->
  handle retrieveLegalKnowledge buildAnswer request1 now
  = handle retrieveLegalKnowledge buildAnswer request2 now.
Proof.
  intros H1 H2 E.
  destruct (trim s1) as [|c q] eqn:T.
  - rewrite (handle_blank retrieveLegalKnowledge buildAnswer request1 now H1 T).
    rewrite (handle_blank retrieveLegalKnowledge buildAnswer request2 now H2
               (eq_sym E)).
    reflexivity.
  - assert (N1 : trim s1 <> []) by (rewrite T; discriminate).
    assert (N2 : trim s2 <> []) by (rewrite <- E; discriminate).
    rewrite (handle_question retrieveLegalKnowledge buildAnswer request1 now H1 N1).
    rewrite (handle_question retrieveLegalKnowledge buildAnswer request2 now H2 N2).
    rewrite T, <- E. reflexivity.
Qed.

(** X5: a [question] string is turned down with 400 exactly when it
    holds nothing but whitespace (spaces, tabs, line ends, no-break
    space, byte-order mark and the like), and answered 200 exactly when
    it holds anything else. *)
Theorem POST_blank_question request s now :
  question_member request = Some (JStr s) ->
  (is_error_response (fst (handle retrieveLegalKnowledge buildAnswer request now))
   <-> blank s = true)
  /\ (is_ok_response (fst (handle retrieveLegalKnowledge buildAnswer request now))
      <-> blank s = false).
Proof.
  intros Hq. destruct (blank s) eqn:B.
  - assert (T : trim s = []) by (apply trim_blank; exact B).
    rewrite (handle_blank retrieveLegalKnowledge buildAnswer request now Hq T).
    simpl. split; split; try discriminate; try reflexivity.
    + intros _. eexists _, _. repeat split.
    + intros [r [Hr Hst]]. injection Hr as <-. discriminate.
  - assert (T : trim s <> []).
    { intros T. apply trim_blank in T. congruence. }
    rewrite (handle_question retrieveLegalKnowledge buildAnswer request now Hq T).
    simpl. split; split; try discriminate; try reflexivity.
    + intros [r [msg [Hr [Hst _]]]]. injection Hr as <-. discriminate.
    + intros _. eexists. split; reflexivity.
Qed.

(** X6: the question the core receives is the request's [question] with
    whitespace taken off the two ends and nothing else changed: it
    begins and ends with a code unit that is not whitespace. *)
Theorem POST_question_trimmed request s now :
  question_member request = Some (JStr s) ->
  blank s = false ->
  exists pre c r post,
    s = pre ++ (c :: r) ++ post
    /\ blank pre = true /\ blank post = true
    /\ is_white_space c = false
    /\ is_white_space (last r c) = false
    /\ snd (handle retrieveLegalKnowledge buildAnswer request now)
       = [ CallRetrieve (c :: r) 5%nat;
           CallBuild (c :: r) (retrieveLegalKnowledge (c :: r) 5%nat) ].
Proof.
  intros Hq B.
  assert (T : trim s <> []).
  { intros T. apply trim_blank in T. congruence. }
  rewrite (handle_question retrieveLegalKnowledge buildAnswer request now Hq T).
  destruct (trim_decompose s) as [pre [post [E [Bp Bq]]]].
  destruct (trim s) as [|c r] eqn:Et; [congruence|].
  destruct (trim_ends s Et) as [Hc Hl].
  exists pre, c, r, post. repeat split; auto.
Qed.




End RouteBehaviour.

(* ====================================================================== *)
(** * Messages and their identifiers                                       *)
(* ====================================================================== *)

Section MessageFacts.
Import JS Page PageContract.

Lemma increment_below c : (c < 2 ^ 53)%N -> increment c = (c + 1)%N.
Proof.
  intros H. unfold increment.
  destruct (N.ltb_spec c (2 ^ 53)); [reflexivity | lia].
Qed.

Lemma increment_ge c : (c <= increment c)%N.
Proof. unfold increment. destruct (N.ltb_spec c (2 ^ 53)); lia. Qed.

(** X8: below 2^53 a call of [nextMessageId] leaves the counter one
    higher, and its result determines both the clock reading and the
    counter it was made from: two calls made from different counter
    values return different identifiers even within the same
    millisecond. *)
Theorem nextMessageId_injective t1 c1 t2 c2 :
  (c1 < 2 ^ 53)%N ->
  (c2 < 2 ^ 53)%N ->
  snd (nextMessageId t1 c1) = (c1 + 1)%N
  /\ (fst (nextMessageId t1 c1) = fst (nextMessageId t2 c2) ->
      t1 = t2 /\ c1 = c2).
Proof.
  intros H1 H2. unfold nextMessageId. simpl.
  rewrite (increment_below H1), (increment_below H2).
  split; [reflexivity|].
  intros E. apply message_id_inj in E. destruct E as [Et Ec].
  split; [exact Et | lia].
Qed.






(** The message of the researcher. *)
Lemma user_message_shape question clock counter :
  is_user_message question
    (fst (createMessage user (Some (JStr question)) None clock counter)).
Proof. repeat split. Qed.

(** The message built from a parsed response. *)
Lemma assistant_message_shape data clock counter :
  is_assistant_message data
    (fst (createMessage assistant (read data (lit "answer"))
            (Some [ (lit "sources", read data (lit "results"));
                    (lit "followUps", read data (lit "followUps")) ])
            clock counter)).
Proof. repeat split. Qed.

Lemma createMessage_id role content clock counter :
  id_of (fst (createMessage role content None clock counter))
  = Some (JStr (message_id (now_ms clock) (increment counter))).
Proof. reflexivity. Qed.

Lemma createMessage_id_with_sources role content v w clock counter :
  id_of (fst (createMessage role content
                (Some [ (lit "sources", v); (lit "followUps", w) ])
                clock counter))
  = Some (JStr (message_id (now_ms clock) (increment counter))).
Proof. reflexivity. Qed.

End MessageFacts.

(* ====================================================================== *)
(** * Submitting a question                                                *)
(* ====================================================================== *)

Section SubmitFacts.
Import JS Page PageContract.

Variable null_read_message : jsstring.

Lemma guard_blank st :
  falsy (Some (trim (input st))) = blank (input st).
Proof.
  destruct (blank (input st)) eqn:B.
  - apply trim_blank in B. rewrite B. reflexivity.
  - destruct (trim (input st)) eqn:T; [|reflexivity].
    apply trim_blank in T. congruence.
Qed.

Lemma submit_rejected st clock :
  blank (input st) = true \/ isLoading st = true ->
  submit st clock = (st, None).
Proof.
  intros H. unfold submit. rewrite guard_blank.
  destruct H as [-> | ->]; [reflexivity|].
  rewrite orb_true_r. reflexivity.
Qed.

Lemma submit_accepted st clock :
  blank (input st) = false ->
  isLoading st = false ->
  submit st clock =
  (mkState (input st)
           (messages st
            ++ [fst (createMessage user (Some (JStr (trim (input st)))) None
                       clock (messageCounter st))])
           true None (increment (messageCounter st)),
   Some (request_for (trim (input st)))).
Proof.
  intros B L. unfold submit. rewrite guard_blank, B, L. reflexivity.
Qed.

(** Renders leave everything but the counter as it is. *)
Lemma renders_keep renders : forall st,
  fold_left render renders st
  = mkState (input st) (messages st) (isLoading st) (error st)
            (messageCounter (fold_left render renders st)).
Proof.
  induction renders as [|clock renders IH]; intros st; simpl.
  - destruct st; reflexivity.
  - rewrite (IH (render st clock)) at 1. reflexivity.
Qed.

Lemma user_message_typed question clock counter :
  message_typed
    (fst (createMessage user (Some (JStr question)) None clock counter))
  = true.
Proof. reflexivity. Qed.

Lemma assistant_message_typed v w x clock counter :
  message_typed
    (fst (createMessage assistant v
            (Some [ (lit "sources", w); (lit "followUps", x) ])
            clock counter))
  = is_string v && optional sources_typed w && optional is_strings x.
Proof. destruct v as [[]|]; reflexivity. Qed.

(** X10: [handleSubmit] does nothing at all when the input holds only
    whitespace or a request is already under way: no message, no
    request, no change of state; in every other case it sends exactly
    one request, whose question is the trimmed input. *)
Theorem handleSubmit_guard st clock :
  (blank (input st) = true \/ isLoading st = true ->
   submit st clock = (st, None)
   /\ forall fetch renders received,
        handleSubmit null_read_message fetch st clock renders received = st)
  /\ (blank (input st) = false /\ isLoading st = false ->
      snd (submit st clock) = Some (request_for (trim (input st)))).
Proof.
  split.
  - intros H. split; [apply submit_rejected; exact H|].
    intros fetch renders received. unfold handleSubmit.
    rewrite (submit_rejected st clock H). reflexivity.
  - intros [B L]. rewrite (submit_accepted st clock B L). reflexivity.
Qed.

(** X11: once past the guard, [handleSubmit] ends with [isLoading]
    false and the input cleared whatever [fetch] does; the messages
    there were are kept in place, the researcher's message, holding the
    trimmed input, comes right after them, and at most one message
    follows it. *)
Theorem handleSubmit_finally fetch st sent renders received :
  blank (input st) = false ->
  isLoading st = false ->
  let final :=
    handleSubmit null_read_message fetch st sent renders received in
  isLoading final = false
  /\ input final = []
  /\ exists userMessage rest,
       messages final = messages st ++ userMessage :: rest
       /\ is_user_message (trim (input st)) userMessage
       /\ (List.length rest <= 1)%nat.
Proof.
  intros B L. cbv zeta. unfold handleSubmit.
  rewrite (submit_accepted st sent B L), renders_keep. unfold settle.
  split; [reflexivity|]. split; [reflexivity|].
  eexists.
  destruct (receive null_read_message _ (fetch (request_for (trim (input st))))
              received) as [err | st'] eqn:R.
  - exists []. simpl. split; [reflexivity|].
    split; [apply user_message_shape | lia].
  - unfold receive in R.
    destruct (fetch (request_for (trim (input st)))) as [err | [] [err | data]];
      try discriminate.
    destruct data; try discriminate; injection R as <-; simpl;
      rewrite <- app_assoc; simpl; eexists;
      (split; [reflexivity|]); (split; [apply user_message_shape | simpl; lia]).
Qed.

(** X12: what the researcher is told when the exchange fails, on a
    page whose messages are of the declared type.  A response that is
    not ok gives the fixed text "The assistant could not process that
    request."; a rejected fetch or an unreadable body gives the message
    of the error, or "Unexpected error occurred." for a thrown value
    that is no [Error]; a body that is [null] gives the engine's message
    for reading a property of [null].  Whenever an error is set, only
    the researcher's message has been added, and the messages are still
    of the declared type. *)
Theorem handleSubmit_failure fetch st sent renders received :
  forallb message_typed (messages st) = true ->
  blank (input st) = false ->
  isLoading st = false ->
  let final :=
    handleSubmit null_read_message fetch st sent renders received in
  let outcome := fetch (request_for (trim (input st))) in
  let userMessage :=
    fst (createMessage user (Some (JStr (trim (input st)))) None
           sent (messageCounter st)) in
  ((exists b, outcome = FetchResponded false b) ->
   error final = Some NOT_OK)
  /\ (forall err,
         outcome = FetchRejected err \/ outcome = FetchResponded true (inl err) ->
         error final = Some (error_text err))
  /\ (outcome = FetchResponded true (inr JNull) ->
      error final = Some null_read_message)
  /\ (error final <> None ->
      messages final = messages st ++ [userMessage]
      /\ forallb message_typed (messages final) = true).
Proof.
  intros Hm B L. cbv zeta. unfold handleSubmit.
  rewrite (submit_accepted st sent B L), renders_keep. unfold settle, receive.
  assert (T : forallb message_typed
                (messages st
                 ++ [fst (createMessage user (Some (JStr (trim (input st))))
                            None sent (messageCounter st))]) = true).
  { rewrite forallb_app, Hm. reflexivity. }
  destruct (fetch (request_for (trim (input st)))) as [err | [] [err | data]];
    [| | destruct data | |]; simpl;
    (split; [first [intros [? H]; discriminate H | intros _; reflexivity]|]);
    (split; [intros ? [H | H];
             first [discriminate H | injection H as <-; reflexivity]|]);
    (split; [first [discriminate | intros _; reflexivity]|]);
    first [intros H; exfalso; apply H; reflexivity
          | intros _; split; [reflexivity | exact T]].
Qed.

(** X13: on a page whose messages are of the declared type, when the
    response is ok and its body is of the type the page declares for
    what it shows (an object whose [answer] is a string, whose
    [results], if any, are sources and whose [followUps], if any, are
    strings), exactly two messages are added: the researcher's, then
    the assistant's, whose [content], [sources] and [followUps] are the
    body's [answer], [results] and [followUps] (or [undefined] where
    the body has none); every message is of the declared type
    [ChatMessage] afterwards, and no error is shown. *)
Theorem handleSubmit_success fetch st sent renders received data :
  forallb message_typed (messages st) = true ->
  blank (input st) = false ->
  isLoading st = false ->
  fetch (request_for (trim (input st))) = FetchResponded true (inr data) ->
  body_typed data = true ->
  let final :=
    handleSubmit null_read_message fetch st sent renders received in
  error final = None
  /\ forallb message_typed (messages final) = true
  /\ exists userMessage assistantMessage,
       messages final = messages st ++ [userMessage; assistantMessage]
       /\ is_user_message (trim (input st)) userMessage
       /\ is_assistant_message data assistantMessage
       /\ message_typed userMessage = true
       /\ message_typed assistantMessage = true.
Proof.
  intros Hm B L F Hd. cbv zeta. unfold handleSubmit.
  rewrite (submit_accepted st sent B L), F, renders_keep.
  unfold settle, receive.
  destruct data; try discriminate Hd. simpl.
  assert (A : message_typed
                (fst (createMessage assistant
                        (own_property props (lit "answer"))
                        (Some [ (lit "sources",
                                 own_property props (lit "results"));
                                (lit "followUps",
                                 own_property props (lit "followUps")) ])
                        received
                        (messageCounter
                           (fold_left render renders
                              (mkState (input st)
                                 (messages st
                                  ++ [fst (createMessage user
                                             (Some (JStr (trim (input st))))
                                             None sent (messageCounter st))])
                                 true None (increment (messageCounter st)))))))
              = true).
  { exact (eq_trans
             (assistant_message_typed
                (own_property props (lit "answer"))
                (own_property props (lit "results"))
                (own_property props (lit "followUps")) received _)
             Hd). }
  split; [reflexivity|].
  split.
  { rewrite !forallb_app, Hm. simpl. simpl in A. rewrite A. reflexivity. }
  rewrite <- app_assoc. simpl. eexists _, _.
  split; [reflexivity|].
  split; [apply user_message_shape|].
  split; [apply (assistant_message_shape (JObj props))|].
  split; [apply user_message_typed|].
  exact A.
Qed.

End SubmitFacts.

(* ====================================================================== *)
(** * The page against the route                                           *)
(* ====================================================================== *)

Section PageAndRoute.
Import JS Page PageContract.

Variable null_read_message : jsstring.
Variable retrieveLegalKnowledge : jsstring -> nat -> list Data.Result.
Variable buildAnswer : jsstring -> list Data.Result -> Data.Answer.
Variable error_page : Thrown + json.

Lemma request_for_member q :
  Contract.question_member (request_for q) = Some (JStr q).
Proof. reflexivity. Qed.

Lemma find_last_split {A} (p : A -> bool) l x :
  find p (rev l) = Some x ->
  exists before after,
    l = before ++ x :: after
    /\ p x = true
    /\ Forall (fun y => p y = false) after.
Proof.
  induction l as [|a l IH] using rev_ind; [discriminate|].
  rewrite rev_app_distr. simpl.
  destruct (p a) eqn:E.
  - intros H. injection H as <-. exists l, []. auto.
  - intros H. destruct (IH H) as [before [after [-> [Hp Hf]]]].
    exists before, (after ++ [a]). rewrite <- app_assoc. simpl.
    repeat split; auto. apply Forall_app. auto.
Qed.

Lemma find_rev_none {A} (p : A -> bool) l :
  find p (rev l) = None <-> Forall (fun y => p y = false) l.
Proof.
  split.
  - intros H. apply Forall_forall. intros y Hy.
    apply (find_none p (rev l) H). apply in_rev in Hy. exact Hy.
  - intros H. destruct (find p (rev l)) as [x|] eqn:E; [|reflexivity].
    apply find_some in E. destruct E as [Hin Hp].
    apply in_rev in Hin. rewrite Forall_forall in H.
    rewrite (H x Hin) in Hp. discriminate.
Qed.

(** X14: [lastAssistantMessage] is the latest message that has the role
    "assistant" and truthy sources: every message after it lacks one of
    the two; it is [undefined] exactly when no message has both. *)
Theorem lastAssistantMessage_latest ms :
  (lastAssistantMessage ms = None
   <-> Forall (fun m => shows_sources m = false) ms)
  /\ forall m,
       lastAssistantMessage ms = Some m ->
       exists before after,
         ms = before ++ m :: after
         /\ shows_sources m = true
         /\ Forall (fun m' => shows_sources m' = false) after.
Proof.
  unfold lastAssistantMessage. split.
  - apply find_rev_none.
  - intros m H. apply find_last_split. exact H.
Qed.

(** The state a run of [handleSubmit] ends in when the response is ok
    and its body is an object. *)
Lemma handleSubmit_object fetch st sent renders received props :
  blank (input st) = false ->
  isLoading st = false ->
  fetch (request_for (trim (input st)))
  = FetchResponded true (inr (JObj props)) ->
  exists counter,
    handleSubmit null_read_message fetch st sent renders received
    = mkState []
        (messages st
         ++ [ fst (createMessage user (Some (JStr (trim (input st)))) None
                     sent (messageCounter st));
              fst (createMessage assistant
                     (own_property props (lit "answer"))
                     (Some [ (lit "sources", own_property props (lit "results"));
                             (lit "followUps",
                              own_property props (lit "followUps")) ])
                     received counter) ])
        false None (increment counter).
Proof.
  intros B L F. unfold handleSubmit.
  rewrite (submit_accepted st sent B L), F, renders_keep.
  unfold settle, receive. simpl.
  eexists. rewrite <- app_assoc. reflexivity.
Qed.

(** X15: the page and the route together.  Whatever passes the page's
    guard passes the route's validation: the handler answers 200, no
    error is shown, and the assistant's message carries the core's
    answer, the serialized results and the follow-ups for the trimmed
    input; that message is then the one [lastAssistantMessage] picks,
    even when the core found nothing. *)
Theorem handleSubmit_against_route served st sent renders received :
  blank (input st) = false ->
  isLoading st = false ->
  let q := trim (input st) in
  let results := retrieveLegalKnowledge q 5%nat in
  let final :=
    handleSubmit null_read_message
      (fetch_route retrieveLegalKnowledge buildAnswer error_page served)
      st sent renders received in
  error final = None
  /\ exists userMessage assistantMessage,
       messages final = messages st ++ [userMessage; assistantMessage]
       /\ is_user_message q userMessage
       /\ get assistantMessage (lit "role") = Some (JStr (lit "assistant"))
       /\ get assistantMessage (lit "content")
          = Some (JStr (Data.answer (buildAnswer q results)))
       /\ get assistantMessage (lit "sources")
          = Some (JArr (map Route.project results))
       /\ get assistantMessage (lit "followUps")
          = Some (Route.strings_json (Data.followUps (buildAnswer q results)))
       /\ lastAssistantMessage (messages final) = Some assistantMessage.
Proof.
  intros B L. cbv zeta.
  assert (T : trim (trim (input st)) <> []).
  { rewrite trim_idempotent. intros T. apply trim_blank in T. congruence. }
  edestruct (@handleSubmit_object
               (fetch_route retrieveLegalKnowledge buildAnswer error_page served)
               st sent renders received) as [counter E]; try eassumption.
  { unfold fetch_route.
    rewrite (handle_question retrieveLegalKnowledge buildAnswer
               (request_for (trim (input st))) served
               (request_for_member (trim (input st))) T).
    rewrite trim_idempotent. reflexivity. }
  rewrite E.
  split; [reflexivity|].
  eexists _, _. split; [reflexivity|].
  split; [apply user_message_shape|].
  repeat (split; [reflexivity|]).
  unfold lastAssistantMessage. simpl messages.
  rewrite rev_app_distr. reflexivity.
Qed.

Lemma forallb_map_JStr l :
  forallb (fun i => match i with JStr _ => true | _ => false end) (map JStr l)
  = true.
Proof. induction l as [|x l IH]; simpl; auto. Qed.

Lemma forallb_source_json l :
  forallb reference_typed (map Route.source_json l) = true.
Proof. induction l as [|x l IH]; simpl; auto. Qed.

Lemma project_typed (r : Data.Result) : source_typed (Route.project r) = true.
Proof.
  destruct r as [[i t ty re er su ex kw ci so] sc hl].
  unfold Route.project, Route.strings_json. simpl.
  rewrite !forallb_map_JStr, forallb_source_json. reflexivity.
Qed.

Lemma forallb_project l :
  forallb source_typed (map Route.project l) = true.
Proof.
  induction l as [|x l IH]; [reflexivity|].
  cbn [map forallb]. rewrite project_typed, IH. reflexivity.
Qed.

(** What the route handler answers with 200 is of the type the page
    declares for what it shows. *)
Lemma route_body_typed request now r :
  fst (Route.handle retrieveLegalKnowledge buildAnswer request now) = Normal r ->
  Route.status r = 200%N ->
  body_typed (Route.body r) = true.
Proof.
  intros Hr Hst.
  destruct (handle_cases retrieveLegalKnowledge buildAnswer request)
    as [[E _] | [[E _] | [[E _] | [s [Hq Hs]]]]];
    try (rewrite E in Hr; simpl in Hr; try discriminate;
         injection Hr as <-; discriminate).
  rewrite (handle_question retrieveLegalKnowledge buildAnswer request now Hq Hs) in Hr.
  injection Hr as <-. unfold Route.strings_json. simpl.
  rewrite forallb_map_JStr, forallb_project. reflexivity.
Qed.

End PageAndRoute.

(* ====================================================================== *)
(** * The page over any sequence of events                                 *)
(* ====================================================================== *)

Section SessionFacts.
Import JS Page PageContract.

Variable null_read_message : jsstring.

Lemma run_cons s e events :
  run null_read_message s (e :: events)
  = run null_read_message (step null_read_message s e) events.
Proof. reflexivity. Qed.

(** What [settle] leaves of the messages and the counter. *)
Lemma settle_cases st outcome clock :
  (messages (settle null_read_message st outcome clock) = messages st
   /\ messageCounter (settle null_read_message st outcome clock)
      = messageCounter st)
  \/ (exists v w x,
         messages (settle null_read_message st outcome clock)
         = messages st
           ++ [fst (createMessage assistant v
                      (Some [ (lit "sources", w); (lit "followUps", x) ])
                      clock (messageCounter st))]
         /\ messageCounter (settle null_read_message st outcome clock)
            = increment (messageCounter st)).
Proof.
  unfold settle, receive.
  destruct outcome as [err | [] [err | data]]; try (left; split; reflexivity).
  destruct data; try (left; split; reflexivity);
    right; eexists _, _, _; split; reflexivity.
Qed.

(** What [submit] leaves of the messages and the counter. *)
Lemma submit_cases st clock :
  submit st clock = (st, None)
  \/ (blank (input st) = false
      /\ isLoading st = false
      /\ submit st clock =
         (mkState (input st)
            (messages st
             ++ [fst (createMessage user (Some (JStr (trim (input st)))) None
                        clock (messageCounter st))])
            true None (increment (messageCounter st)),
          Some (request_for (trim (input st))))).
Proof.
  destruct (blank (input st)) eqn:B;
    [left; apply submit_rejected; auto|].
  destruct (isLoading st) eqn:L;
    [left; apply submit_rejected; auto|].
  right. repeat split. apply submit_accepted; assumption.
Qed.

(** The messages and the counter after one event: nothing new, or one
    message more, stamped with the next counter value. *)
Lemma step_cases s e :
  let s' := step null_read_message s e in
  (messages (state s') = messages (state s)
   /\ (messageCounter (state s') = messageCounter (state s)
       \/ messageCounter (state s') = increment (messageCounter (state s))))
  \/ (exists m t,
         messages (state s') = messages (state s) ++ [m]
         /\ id_of m
            = Some (JStr (message_id t (increment (messageCounter (state s)))))
         /\ messageCounter (state s') = increment (messageCounter (state s))).
Proof.
  cbv zeta. destruct e as [clock | text | suggestion | clock | outcome clock];
    simpl.
  - left. split; [reflexivity | right; reflexivity].
  - left. split; [reflexivity | left; reflexivity].
  - left. split; [reflexivity | left; reflexivity].
  - destruct (submit_cases (state s) clock) as [E | [_ [_ E]]]; rewrite E; simpl.
    + left. split; [reflexivity | left; reflexivity].
    + right. eexists _, (now_ms clock). repeat split.
  - destruct (in_flight s); simpl;
      [|left; split; [reflexivity | left; reflexivity]].
    destruct (settle_cases (state s) outcome clock)
      as [[Em Ec] | [v [w [x [Em Ec]]]]].
    + left. split; [exact Em | left; exact Ec].
    + right. eexists _, (now_ms clock).
      split; [exact Em|]. split; [reflexivity | exact Ec].
Qed.

Lemma step_counter_mono s e :
  (messageCounter (state s)
   <= messageCounter (state (step null_read_message s e)))%N.
Proof.
  pose proof (increment_ge (messageCounter (state s))).
  destruct (step_cases s e) as [[_ [E | E]] | [m [t [_ [_ E]]]]];
    rewrite E; lia.
Qed.

Lemma run_counter_mono events : forall s,
  (messageCounter (state s)
   <= messageCounter (state (run null_read_message s events)))%N.
Proof.
  induction events as [|e events IH]; intros s; [simpl; lia|].
  rewrite run_cons. specialize (IH (step null_read_message s e)).
  pose proof (step_counter_mono s e). lia.
Qed.

Lemma ascending_weaken lo cs hi hi' :
  ascending lo cs hi -> (hi <= hi')%N -> ascending lo cs hi'.
Proof.
  revert lo. induction cs as [|c cs IH]; simpl; intros lo H Hh; [lia|].
  destruct H as [H1 H2]. split; [exact H1 | apply IH; assumption].
Qed.

Lemma ascending_snoc lo cs hi c :
  ascending lo cs hi -> (hi < c)%N -> ascending lo (cs ++ [c]) c.
Proof.
  revert lo. induction cs as [|d cs IH]; simpl; intros lo H Hc.
  - split; lia.
  - destruct H as [H1 H2]. split; [exact H1 | apply IH; assumption].
Qed.

Lemma ascending_above lo cs hi c : ascending lo cs hi -> In c cs -> (lo < c)%N.
Proof.
  revert lo. induction cs as [|d cs IH]; simpl; intros lo H Hin; [tauto|].
  destruct H as [H1 H2]. destruct Hin as [-> | Hin]; [exact H1|].
  specialize (IH d H2 Hin). lia.
Qed.

Lemma numbered_step s e :
  numbered (state s) ->
  (messageCounter (state (step null_read_message s e)) < 2 ^ 53)%N ->
  numbered (state (step null_read_message s e)).
Proof.
  intros [cs [Hst Hasc]] Hb.
  pose proof (increment_ge (messageCounter (state s))) as Hge.
  destruct (step_cases s e) as [[Em Ec] | [m [t [Em [Eid Ec]]]]].
  - exists cs. rewrite Em. split; [exact Hst|].
    apply (ascending_weaken _ _ Hasc). destruct Ec as [-> | ->]; lia.
  - assert (Hlt : (messageCounter (state s) < 2 ^ 53)%N) by lia.
    rewrite (increment_below Hlt) in *.
    exists (cs ++ [(messageCounter (state s) + 1)%N]). rewrite Em, Ec. split.
    + apply Forall2_app; [exact Hst|]. repeat constructor. exists t. exact Eid.
    + apply (ascending_snoc _ _ Hasc). lia.
Qed.

Lemma numbered_run events : forall s,
  numbered (state s) ->
  (messageCounter (state (run null_read_message s events)) < 2 ^ 53)%N ->
  numbered (state (run null_read_message s events)).
Proof.
  induction events as [|e events IH]; intros s Hn Hb; [exact Hn|].
  rewrite run_cons in *. apply IH; [|exact Hb].
  apply numbered_step; [exact Hn|].
  pose proof (run_counter_mono events (step null_read_message s e)). lia.
Qed.

Lemma Forall2_In_left {A B} (R : A -> B -> Prop) l l' x :
  Forall2 R l l' -> In x l -> exists y, In y l' /\ R x y.
Proof.
  induction 1 as [|a b l l' Hab _ IH]; simpl; [tauto|].
  intros [<- | Hin]; [exists b; auto|].
  destruct (IH Hin) as [y [Hy Hr]]. exists y. auto.
Qed.

Lemma numbered_distinct st : numbered st -> NoDup (map id_of (messages st)).
Proof.
  intros [cs [Hst Hasc]]. revert Hasc. generalize 0%N as lo.
  induction Hst as [|m c ms cs [t Hid] Hst IH]; intros lo Hasc; simpl;
    [constructor|].
  destruct Hasc as [Hlo Hasc]. constructor; [|apply (IH c Hasc)].
  intros Hin. apply in_map_iff in Hin. destruct Hin as [m' [E Hm']].
  destruct (@Forall2_In_left _ _ _ _ _ _ Hst Hm') as [c' [Hc' [t' Hid']]].
  rewrite Hid, Hid' in E.
  assert (E' : message_id t' c' = message_id t c) by congruence.
  apply message_id_inj in E'. destruct E' as [_ E']. subst c'.
  pose proof (@ascending_above _ _ _ _ Hasc Hc'). lia.
Qed.

(** X16: whatever the sequence of renders, keystrokes, suggestion
    clicks, submissions and answers, as long as the counter has not
    reached 2^53 the messages on the page carry pairwise different
    identifiers. *)
Theorem message_ids_unique first events :
  let s := run null_read_message (start first) events in
  (messageCounter (state s) < 2 ^ 53)%N ->
  NoDup (map id_of (messages (state s))).
Proof.
  cbv zeta. intros Hb. apply numbered_distinct.
  apply numbered_run; [|exact Hb].
  exists [1%N]. split.
  - repeat constructor. exists (now_ms first). reflexivity.
  - simpl. vm_compute. split; [reflexivity | discriminate].
Qed.

Lemma single_flight_step s e :
  single_flight s -> single_flight (step null_read_message s e).
Proof.
  unfold single_flight. intros H.
  destruct e as [clock | text | suggestion | clock | outcome clock]; simpl;
    try exact H.
  - destruct (submit_cases (state s) clock) as [E | [B [L E]]]; rewrite E; simpl.
    + exact H.
    + split; [reflexivity|]. exists (trim (input (state s))).
      split; [reflexivity|]. split; [|apply trim_idempotent].
      intros T. apply trim_blank in T. congruence.
  - destruct (in_flight s) eqn:F; simpl; [reflexivity | rewrite F; exact H].
Qed.

Lemma single_flight_run events : forall s,
  single_flight s -> single_flight (run null_read_message s events).
Proof.
  induction events as [|e events IH]; intros s H; [exact H|].
  rewrite run_cons. apply IH, single_flight_step, H.
Qed.

(** X17: whatever the sequence of events, [isLoading] is true exactly
    while a request is under way, and a submission made meanwhile sends
    nothing, so at most one request is under way at a time; the request
    under way is one the route handler answers with 200, for any core. *)
Theorem one_request_at_a_time first events :
  let s := run null_read_message (start first) events in
  (isLoading (state s) = true <-> in_flight s <> None)
  /\ (forall clock,
         in_flight s <> None -> submit (state s) clock = (state s, None))
  /\ forall request retrieveLegalKnowledge buildAnswer now,
       in_flight s = Some request ->
       Contract.is_ok_response
         (fst (Route.handle retrieveLegalKnowledge buildAnswer request now)).
Proof.
  cbv zeta.
  assert (H : single_flight (run null_read_message (start first) events))
    by (apply single_flight_run; reflexivity).
  unfold single_flight in H.
  destruct (in_flight (run null_read_message (start first) events))
    as [request|].
  - destruct H as [L [q [-> [Hq Ht]]]]. split; [|split].
    + split; [discriminate | intros _; exact L].
    + intros clock _. apply submit_rejected. right. exact L.
    + intros request rLK bA now E. injection E as <-.
      assert (T : trim q <> []) by congruence.
      rewrite (handle_question rLK bA (request_for q) now eq_refl T).
      eexists. split; reflexivity.
  - split; [|split]; [|congruence|discriminate].
    rewrite H. split; [discriminate | congruence].
Qed.

Lemma step_extends s e :
  extends (messages (state s))
          (messages (state (step null_read_message s e))).
Proof.
  destruct (step_cases s e) as [[Em _] | [m [t [Em _]]]]; rewrite Em.
  - exists []. rewrite app_nil_r. reflexivity.
  - exists [m]. reflexivity.
Qed.

Lemma settle_typed st outcome clock :
  forallb message_typed (messages st) = true ->
  settles_typed (Settled outcome clock) = true ->
  forallb message_typed (messages (settle null_read_message st outcome clock))
  = true.
Proof.
  intros Hm He. unfold settle, receive.
  destruct outcome as [err | [] [err | data]]; simpl; auto.
  destruct data; simpl in *; auto; try discriminate He.
  rewrite forallb_app, Hm. simpl. rewrite andb_true_r.
  exact (eq_trans
           (assistant_message_typed
              (own_property props (lit "answer"))
              (own_property props (lit "results"))
              (own_property props (lit "followUps")) clock _)
           He).
Qed.

Lemma step_typed s e :
  forallb message_typed (messages (state s)) = true ->
  settles_typed e = true ->
  forallb message_typed (messages (state (step null_read_message s e))) = true.
Proof.
  intros Hm He.
  destruct e as [clock | text | suggestion | clock | outcome clock]; simpl;
    try exact Hm.
  - destruct (submit_cases (state s) clock) as [E | [_ [_ E]]]; rewrite E; simpl;
      [exact Hm|].
    rewrite forallb_app, Hm. reflexivity.
  - destruct (in_flight s); simpl; [|exact Hm].
    apply settle_typed; assumption.
Qed.

Lemma run_typed events : forall s,
  forallb message_typed (messages (state s)) = true ->
  forallb settles_typed events = true ->
  forallb message_typed
          (messages (state (run null_read_message s events))) = true.
Proof.
  induction events as [|e events IH]; intros s Hm He; [exact Hm|].
  simpl in He. apply andb_true_iff in He. destruct He as [He Hes].
  rewrite run_cons. apply IH; [|exact Hes]. apply step_typed; assumption.
Qed.

Lemma run_extends events : forall s,
  extends (messages (state s))
          (messages (state (run null_read_message s events))).
Proof.
  induction events as [|e events IH]; intros s.
  - exists []. rewrite app_nil_r. reflexivity.
  - rewrite run_cons. destruct (IH (step null_read_message s e)) as [m2 E2].
    destruct (step_extends s e) as [m1 E1].
    exists (m1 ++ m2). rewrite E2, E1, app_assoc. reflexivity.
Qed.

(** X18: as long as every answer that arrives is a failure or brings a
    body of the type the page declares for what it shows, every message
    on the page is of the declared type [ChatMessage], which is what the
    JSX needs to render it, and the page never drops, reorders or
    rewrites a message: what was there at an earlier point of the
    session is still there, in place, and the welcome message of the
    first render is the first. *)
Theorem messages_only_grow first before after :
  forallb settles_typed (before ++ after) = true ->
  let earlier := run null_read_message (start first) before in
  let later := run null_read_message (start first) (before ++ after) in
  extends (messages (state earlier)) (messages (state later))
  /\ forallb message_typed (messages (state later)) = true
  /\ exists more,
       messages (state later) = fst (welcome_message first 0) :: more.
Proof.
  intros H. cbv zeta. split; [|split].
  - unfold run. rewrite fold_left_app. apply run_extends.
  - apply run_typed; [reflexivity | exact H].
  - destruct (run_extends (before ++ after) (start first)) as [more E].
    exists more. exact E.
Qed.

End SessionFacts.

(* ====================================================================== *)
(** * What the page shows                                                  *)
(* ====================================================================== *)

Section DisplayFacts.
Import JS Page PageContract.

Lemma join_empty sep items :
  sep <> [] -> join sep items = [] -> items = [] \/ items = [[]].
Proof.
  intros Hs. destruct items as [|x [|y rest]]; simpl; auto.
  - intros ->. auto.
  - intros H. apply app_eq_nil in H. destruct H as [_ H].
    apply app_eq_nil in H. destruct H as [H _]. contradiction.
Qed.

(** X19: the citation line of a source is never empty: it reads
    "Citation unavailable" when the source has no citation or a single
    empty one, and otherwise it is the citations joined by " • ". *)
Theorem citation_line_shown citations :
  citation_line citations <> []
  /\ (citations = [] \/ citations = [[]] ->
      citation_line citations = lit "Citation unavailable")
  /\ (citations <> [] -> citations <> [[]] ->
      citation_line citations = join BULLET citations).
Proof.
  unfold citation_line.
  destruct (join BULLET citations) as [|c line] eqn:E.
  - split; [discriminate|]. split; [reflexivity|].
    intros H1 H2. apply join_empty in E; [|discriminate].
    destruct E; contradiction.
  - split; [discriminate|]. split; [|reflexivity].
    intros [-> | ->]; discriminate.
Qed.

End DisplayFacts.

(* ====================================================================== *)
(** * The page and the route at work on the sample data                    *)
(* ====================================================================== *)

Section PageInstances.
Import JS Page PageContract.

Lemma POST_reads_only_question_witness :
  Contract.question_member PageSample.padded_question
  = Some (JStr (lit " champerty "))
  /\ Contract.question_member (Sample.question_body "champerty")
     = Some (JStr (lit "champerty"))
  /\ trim (lit " champerty ") = trim (lit "champerty")
  /\ Route.handle Sample.retrieve Sample.build
       PageSample.padded_question Sample.now
     = Route.handle Sample.retrieve Sample.build
         (Sample.question_body "champerty") Sample.now.
Proof.
  assert (T : trim (lit " champerty ") = trim (lit "champerty"))
    by (vm_compute; reflexivity).
  split; [reflexivity|]. split; [reflexivity|]. split; [exact T|].
  apply (@POST_reads_only_question Sample.retrieve Sample.build
           PageSample.padded_question (Sample.question_body "champerty")
           (lit " champerty ") (lit "champerty") Sample.now
           eq_refl eq_refl T).
Defined.

Lemma POST_blank_question_witness :
  Contract.question_member (Sample.question_body "   ")
  = Some (JStr (lit "   "))
  /\ (Contract.is_error_response
        (fst (Route.handle Sample.retrieve Sample.build
                (Sample.question_body "   ") Sample.now))
      <-> blank (lit "   ") = true).
Proof.
  split; [reflexivity|].
  apply (proj1 (@POST_blank_question Sample.retrieve Sample.build
                  (Sample.question_body "   ") (lit "   ") Sample.now eq_refl)).
Defined.

Lemma POST_question_trimmed_witness :
  Contract.question_member (Sample.question_body " champerty ")
  = Some (JStr (lit " champerty "))
  /\ blank (lit " champerty ") = false
  /\ exists pre c r post,
       lit " champerty " = pre ++ (c :: r) ++ post
       /\ blank pre = true /\ blank post = true
       /\ is_white_space c = false
       /\ is_white_space (last r c) = false
       /\ snd (Route.handle Sample.retrieve Sample.build
                 (Sample.question_body " champerty ") Sample.now)
          = [ Route.CallRetrieve (c :: r) 5%nat;
              Route.CallBuild (c :: r) (Sample.retrieve (c :: r) 5%nat) ].
Proof.
  assert (B : blank (lit " champerty ") = false) by (vm_compute; reflexivity).
  split; [reflexivity|]. split; [exact B|].
  apply (@POST_question_trimmed Sample.retrieve Sample.build
           (Sample.question_body " champerty ") (lit " champerty ")
           Sample.now eq_refl B).
Defined.


Lemma nextMessageId_injective_witness :
  (1 < 2 ^ 53)%N
  /\ (2 < 2 ^ 53)%N
  /\ snd (nextMessageId 1700000000000 1) = 2%N
  /\ fst (nextMessageId 1700000000000 1)
     <> fst (nextMessageId 1700000000000 2).
Proof.
  assert (H1 : (1 < 2 ^ 53)%N) by (vm_compute; reflexivity).
  assert (H2 : (2 < 2 ^ 53)%N) by (vm_compute; reflexivity).
  split; [exact H1|]. split; [exact H2|].
  destruct (@nextMessageId_injective 1700000000000 1 1700000000000 2 H1 H2)
    as [Hs Hi].
  split; [exact Hs|].
  intros E. destruct (Hi E) as [_ Hc]. discriminate Hc.
Defined.

Lemma handleSubmit_finally_witness :
  blank (input PageSample.typed) = false
  /\ isLoading PageSample.typed = false
  /\ isLoading (handleSubmit PageSample.null_read_message PageSample.fetch_down
                  PageSample.typed PageSample.sent [PageSample.sent] PageSample.received)
     = false
  /\ input (handleSubmit PageSample.null_read_message PageSample.fetch_down
              PageSample.typed PageSample.sent [PageSample.sent] PageSample.received)
     = [].
Proof.
  assert (B : blank (input PageSample.typed) = false)
    by (vm_compute; reflexivity).
  split; [exact B|]. split; [reflexivity|].
  destruct (@handleSubmit_finally PageSample.null_read_message
              PageSample.fetch_down PageSample.typed
              PageSample.sent [PageSample.sent] PageSample.received B eq_refl)
    as [Hl [Hi _]].
  split; [exact Hl | exact Hi].
Defined.

Lemma handleSubmit_failure_witness :
  forallb message_typed (messages PageSample.typed) = true
  /\ blank (input PageSample.typed) = false
  /\ isLoading PageSample.typed = false
  /\ error (handleSubmit PageSample.null_read_message PageSample.fetch_down
              PageSample.typed PageSample.sent [PageSample.sent]
              PageSample.received)
     = Some NOT_OK.
Proof.
  assert (T : forallb message_typed (messages PageSample.typed) = true)
    by (vm_compute; reflexivity).
  assert (B : blank (input PageSample.typed) = false)
    by (vm_compute; reflexivity).
  split; [exact T|]. split; [exact B|]. split; [reflexivity|].
  apply (proj1 (@handleSubmit_failure PageSample.null_read_message
                  PageSample.fetch_down PageSample.typed
                  PageSample.sent [PageSample.sent] PageSample.received
                  T B eq_refl)).
  exists (inl NotAnError). reflexivity.
Defined.

Lemma handleSubmit_success_witness :
  forallb message_typed (messages PageSample.typed) = true
  /\ blank (input PageSample.typed) = false
  /\ isLoading PageSample.typed = false
  /\ PageSample.fetch_answer (request_for (trim (input PageSample.typed)))
     = FetchResponded true (inr PageSample.answer_body)
  /\ body_typed PageSample.answer_body = true
  /\ error (handleSubmit PageSample.null_read_message PageSample.fetch_answer
              PageSample.typed PageSample.sent [PageSample.sent]
              PageSample.received)
     = None.
Proof.
  assert (T : forallb message_typed (messages PageSample.typed) = true)
    by (vm_compute; reflexivity).
  assert (B : blank (input PageSample.typed) = false)
    by (vm_compute; reflexivity).
  assert (D : body_typed PageSample.answer_body = true)
    by (vm_compute; reflexivity).
  split; [exact T|]. split; [exact B|]. split; [reflexivity|].
  split; [reflexivity|]. split; [exact D|].
  apply (proj1 (@handleSubmit_success PageSample.null_read_message
                  PageSample.fetch_answer PageSample.typed PageSample.sent
                  [PageSample.sent] PageSample.received
                  PageSample.answer_body T B eq_refl eq_refl D)).
Defined.

Lemma handleSubmit_against_route_witness :
  blank (input PageSample.typed) = false
  /\ isLoading PageSample.typed = false
  /\ error (handleSubmit PageSample.null_read_message PageSample.fetch_sample
              PageSample.typed PageSample.sent [PageSample.sent] PageSample.received)
     = None.
Proof.
  assert (B : blank (input PageSample.typed) = false)
    by (vm_compute; reflexivity).
  split; [exact B|]. split; [reflexivity|].
  apply (proj1 (@handleSubmit_against_route PageSample.null_read_message
                  Sample.retrieve Sample.build (inl NotAnError) Sample.now
                  PageSample.typed PageSample.sent [PageSample.sent] PageSample.received
                  B eq_refl)).
Defined.

Lemma message_ids_unique_witness :
  (messageCounter
     (state (run PageSample.null_read_message
               (start PageSample.first_render) PageSample.events))
   < 2 ^ 53)%N
  /\ NoDup (map id_of
              (messages
                 (state (run PageSample.null_read_message
                           (start PageSample.first_render)
                           PageSample.events)))).
Proof.
  assert (H : (messageCounter
                 (state (run PageSample.null_read_message
                           (start PageSample.first_render) PageSample.events))
               < 2 ^ 53)%N) by (vm_compute; reflexivity).
  split; [exact H|].
  apply (@message_ids_unique PageSample.null_read_message
           PageSample.first_render PageSample.events H).
Defined.

Lemma messages_only_grow_witness :
  forallb settles_typed (firstn 4 PageSample.events ++ skipn 4 PageSample.events)
  = true
  /\ extends
       (messages
          (state (run PageSample.null_read_message
                    (start PageSample.first_render)
                    (firstn 4 PageSample.events))))
       (messages
          (state (run PageSample.null_read_message
                    (start PageSample.first_render)
                    (firstn 4 PageSample.events ++ skipn 4 PageSample.events))))
  /\ forallb message_typed
       (messages
          (state (run PageSample.null_read_message
                    (start PageSample.first_render)
                    (firstn 4 PageSample.events ++ skipn 4 PageSample.events))))
     = true.
Proof.
  assert (H : forallb settles_typed
                (firstn 4 PageSample.events ++ skipn 4 PageSample.events)
              = true) by (vm_compute; reflexivity).
  split; [exact H|].
  destruct (@messages_only_grow PageSample.null_read_message
              PageSample.first_render
              (firstn 4 PageSample.events) (skipn 4 PageSample.events) H)
    as [He [Ht _]].
  split; [exact He | exact Ht].
Defined.

End PageInstances.
